(** * Countdown Clock & Habit Tracker: the client logic of [frontend/src/App.js]

    A shallow embedding of the pure and state-passing parts of the React
    client: the countdown arithmetic, the home-view selections, the
    polling notification check, the delete and log handlers, the custom-day
    toggle of the habit form and the statistics aggregation.

    Conventions.
    - A JS [Date] is modelled by its time value, the number of milliseconds
      since the epoch, as a [Z].  Invalid dates are outside the model.
    - Counts (streaks, completions) are natural numbers [N]; day indices
      and minute amounts are [Z].  The completion rates the overview adds
      and divides are binary64 doubles ([float]), summed in the order of
      the object's properties; the pie chart of one habit, which only
      subtracts a rate from 100, reads the rate as the rational [Qc] it
      denotes.
    - A plain JS object used as a map is modelled with the members it
      inherits from [Object.prototype] where the code reads or writes it
      under a key that comes from the data.
    - A handler that touches the outside world takes the outcome of each
      interaction (the answer of [window.confirm], the fate of an axios
      promise, the reading of the clock) as an argument and returns the
      new component state together with the effects it issued. *)

From Stdlib Require Import ZArith NArith QArith Qcanon Lia Permutation Sorted.
From Stdlib Require Import PrimFloat.
From Stdlib Require Uint63.
From stdpp Require Import list gmap strings pretty.

Local Open Scope Z_scope.

(** ** Dates and the [date-fns] helpers the client imports

    [date-fns] is a dependency of the client; its two helpers are
    modelled by their documented behaviour on valid dates. *)

Definition Date : Type := Z.

Module DateFns.

Definition millisecondsInMinute : Z := 60000.

(** [addMinutes(date, amount)]: the date [amount] minutes later. *)
Definition addMinutes (date : Date) (amount : Z) : Date :=
  date + amount * millisecondsInMinute.

(** [differenceInSeconds(dateLeft, dateRight)]: the number of full
    seconds between the two dates, rounded towards zero. *)
Definition differenceInSeconds (dateLeft dateRight : Date) : Z :=
  (dateLeft - dateRight) ÷ 1000.

End DateFns.

(** ** Records exchanged with the REST API *)

Record Countdown : Type := mkCountdown {
  cd_id : string;
  cd_title : string;
  cd_description : string;
  target_date : Date;
  notify_before : option Z;      (* [None] is null/undefined *)
  is_timer : bool;
  is_completed : bool
}.

Record Habit : Type := mkHabit {
  hb_id : string;
  hb_title : string;
  hb_description : string;
  frequency : string;
  custom_days : option (list Z); (* [None] is null/undefined *)
  category_id : option string
}.

Record Category : Type := mkCategory {
  cat_id : string;
  cat_name : string;
  cat_color : string
}.


(** [{...countdown, is_completed: flag}] *)
Definition with_is_completed (countdown : Countdown) (flag : bool) : Countdown :=
  {| cd_id := cd_id countdown; cd_title := cd_title countdown;
     cd_description := cd_description countdown;
     target_date := target_date countdown;
     notify_before := notify_before countdown;
     is_timer := is_timer countdown;
     is_completed := flag |}.

(** Entities carry a string [id]; the three delete handlers only use that. *)
Class HasId (A : Type) := id_of : A → string.
Global Instance Countdown_id : HasId Countdown := cd_id.
Global Instance Habit_id : HasId Habit := hb_id.
Global Instance Category_id : HasId Category := cat_id.

(** ** JavaScript primitives used by the client *)

Module JS.

(** Truthiness of a number-or-null field: null, undefined and 0 are falsy. *)
Definition truthy_num (v : option Z) : bool :=
  match v with
  | Some n => negb (n =? 0)
  | None => false
  end.

(** Truthiness of an array-or-null field: every array is truthy. *)
Definition truthy_arr {A} (v : option (list A)) : bool :=
  match v with
  | Some _ => true
  | None => false
  end.

(** [Math.floor(a / b)] on integers with [b > 0].  For integers in the
    range of dates the double nearest to the exact quotient has the same
    floor as the exact quotient, so this is the floor division of [Z]. *)
Definition floor_div (a b : Z) : Z := a / b.

(** [a % b] on integers: the remainder has the sign of the dividend.
    [Math.floor] of it is the remainder itself. *)
Definition remainder (a b : Z) : Z := Z.rem a b.

(** [arr.indexOf(x)]: position of the first occurrence, [-1] if none. *)
Fixpoint indexOf (arr : list Z) (x : Z) : Z :=
  match arr with
  | [] => -1
  | y :: arr' =>
      if bool_decide (y = x) then 0
      else let i := indexOf arr' x in
           if i <? 0 then -1 else i + 1
  end.

(** [arr.includes(x)]. *)
Definition includes (arr : list Z) (x : Z) : bool := bool_decide (x ∈ arr).

(** [arr.splice(index, 1)] for [index >= 0]: drops the element at [index]. *)
Definition splice1 {A} (arr : list A) (index : Z) : list A :=
  delete (Z.to_nat index) arr.

(** [arr.sort(compare)]: the sort is stable, so with a consistent
    comparator its result is that of a stable insertion sort. *)
Fixpoint sort_insert {A} (compare : A → A → Z) (x : A) (l : list A) : list A :=
  match l with
  | [] => [x]
  | y :: l' =>
      if compare x y <=? 0 then x :: y :: l'
      else y :: sort_insert compare x l'
  end.

Fixpoint sort {A} (compare : A → A → Z) (arr : list A) : list A :=
  match arr with
  | [] => []
  | x :: arr' => sort_insert compare x (sort compare arr')
  end.

(** The one-character string holding a double quote. *)
Definition dquote : string :=
  String (Ascii.Ascii false true false false false true false false) EmptyString.

(** [arr.slice(0, n)]. *)
Definition slice0 {A} (n : nat) (arr : list A) : list A := take n arr.

End JS.

(** ** [calculateTimeRemaining] *)

Record TimeRemaining : Type := mkTimeRemaining {
  days : Z;
  hours : Z;
  minutes : Z;
  seconds : Z;
  isComplete : bool
}.

(** [now] is the reading of [new Date()] taken by the call. *)
Definition calculateTimeRemaining (now : Date) (targetDate : Date) : TimeRemaining :=
  let target := targetDate in
  let diffInSeconds := DateFns.differenceInSeconds target now in
  if diffInSeconds <=? 0 then
    {| days := 0; hours := 0; minutes := 0; seconds := 0; isComplete := true |}
  else
    let days := JS.floor_div diffInSeconds (24 * 60 * 60) in
    let hours := JS.floor_div (JS.remainder diffInSeconds (24 * 60 * 60)) (60 * 60) in
    let minutes := JS.floor_div (JS.remainder diffInSeconds (60 * 60)) 60 in
    let seconds := JS.remainder diffInSeconds 60 in
    {| days := days; hours := hours; minutes := minutes; seconds := seconds;
       isComplete := false |}.

(** ** The home view *)

Module Home.

(** The three soonest countdowns that are not expired. *)
Definition activeCountdowns (now : Date) (countdowns : list Countdown) : list Countdown :=
  JS.slice0 3
    (JS.sort (λ a b, target_date a - target_date b)
       (filter (λ countdown, now < target_date countdown) countdowns)).

(** The filter callback of the today's-habits selection. *)
Definition scheduledToday (dayOfWeek : Z) (habit : Habit) : bool :=
  if bool_decide (frequency habit = "daily") then true
  else if bool_decide (frequency habit = "weekly") && (dayOfWeek =? 1) then true
  else if bool_decide (frequency habit = "custom")
          && JS.truthy_arr (custom_days habit)
          && JS.includes (default [] (custom_days habit)) dayOfWeek then true
  else false.

Definition todaysHabits (dayOfWeek : Z) (habits : list Habit) : list Habit :=
  JS.slice0 3 (filter (λ habit, scheduledToday dayOfWeek habit = true) habits).

End Home.

(** ** Effects and outcomes of the interactions with the browser and the API *)

Inductive Permission : Type := granted | denied | default_permission.

Global Instance Permission_eq_dec : EqDecision Permission.
Proof. solve_decision. Defined.

Inductive Effect : Type :=
  | ShowNotification (title body : string)  (* [new Notification(title, {body, icon})] *)
  | PlayAudio (src : string)                (* [new Audio(src).play()] *)
  | AxiosPut (url : string) (payload : Countdown)
  | Alert (message : string)
  | ConsoleError (message : string).

(** How an axios promise settles: resolved, or rejected with an error whose
    [response.status] is known ([Some status]) or that has no response. *)
Inductive Settled : Type :=
  | Resolved
  | Rejected (status : option Z).

(** [sendNotification]; [notification] is the [Notification] global of the
    browser, [None] where the browser has none and else the permission it
    reports.  The function reads [Notification.permission] first, so where
    there is no [Notification] it throws, which [None] stands for. *)
Definition sendNotification (notification : option Permission) (title body : string)
    : option (list Effect) :=
  match notification with
  | None => None
  | Some permission =>
      Some (if bool_decide (permission = granted) then
              [ShowNotification title body; PlayAudio "/notification.mp3"]
            else [])
  end.

(** ** The countdowns page *)

Module CountdownsList.
Section WithAPI.

Variable API : string.

(** One iteration of the [forEach] of [checkNotifications]; [now] is the
    clock reading of that iteration.  The result is the effects issued and
    whether the iteration ended by throwing. *)
Definition checkCountdown (notification : option Permission) (now : Date)
    (countdown : Countdown) : list Effect * bool :=
  if JS.truthy_num (notify_before countdown) && negb (is_completed countdown) then
    let targetDate := target_date countdown in
    let minutesBefore := default 0 (notify_before countdown) in
    let notifyTime := DateFns.addMinutes targetDate (- minutesBefore) in
    let reminded :=
      if (notifyTime <=? now) && (now <=? DateFns.addMinutes notifyTime 1) then
        sendNotification notification
          ("Countdown Reminder: " +:+ cd_title countdown)
          ("Your countdown will complete in " +:+ pretty minutesBefore +:+ " minutes!")
      else Some [] in
    match reminded with
    | None => ([], true)
    | Some shown =>
        if (targetDate <=? now) && (now <=? DateFns.addMinutes targetDate 1) then
          match sendNotification notification
                  ("Countdown Complete: " +:+ cd_title countdown)
                  ("Your countdown " +:+ JS.dquote +:+ cd_title countdown +:+ JS.dquote
                     +:+ " is now complete!") with
          | None => (shown, true)
          | Some shown' =>
              (shown ++ shown'
                 ++ [AxiosPut (API +:+ "/countdowns/" +:+ cd_id countdown)
                       (with_is_completed countdown true)],
               false)
          end
        else (shown, false)
    end
  else ([], false).

(** The iterations from the [i]-th countdown on, in list order; [clock i]
    is the clock reading of the iteration on the [i]-th countdown.  An
    iteration that throws ends the loop. *)
Fixpoint checkFrom (notification : option Permission) (clock : nat → Date) (i : nat)
    (countdowns : list Countdown) : list Effect * bool :=
  match countdowns with
  | [] => ([], false)
  | countdown :: rest =>
      let '(issued, threw) := checkCountdown notification (clock i) countdown in
      if threw then (issued, true)
      else
        let '(issued', threw') := checkFrom notification clock (S i) rest in
        (issued ++ issued', threw')
  end.

(** [checkNotifications]: the effects issued and whether the check threw. *)
Definition checkNotifications (notification : option Permission) (clock : nat → Date)
    (countdowns : list Countdown) : list Effect * bool :=
  checkFrom notification clock 0 countdowns.

End WithAPI.

(** [confirmed] is the answer of [window.confirm], [deleted] the fate of
    the DELETE request. *)
Definition handleDeleteCountdown (confirmed : bool) (deleted : Settled) (id : string)
    (countdowns : list Countdown) : list Countdown * list Effect :=
  if confirmed then
    match deleted with
    | Resolved => (filter (λ c, cd_id c ≠ id) countdowns, [])
    | Rejected _ => (countdowns, [ConsoleError "Error deleting countdown:"])
    end
  else (countdowns, []).

End CountdownsList.

(** ** The habits page *)

Module HabitsList.

Definition handleDeleteHabit (confirmed : bool) (deleted : Settled) (id : string)
    (habits : list Habit) : list Habit * list Effect :=
  if confirmed then
    match deleted with
    | Resolved => (filter (λ h, hb_id h ≠ id) habits, [])
    | Rejected _ => (habits, [ConsoleError "Error deleting habit:"])
    end
  else (habits, []).

(** [habitLogs] maps a habit id to its logged-today flag; [posted] is
    the fate of the POST to the log endpoint. *)
Definition handleLogCompletion (posted : Settled) (habitId : string)
    (habitLogs : gmap string bool) : gmap string bool * list Effect :=
  match posted with
  | Resolved => (<[habitId := true]> habitLogs, [])
  | Rejected status =>
      if bool_decide (status = Some 400) then
        (habitLogs, [Alert "You've already logged this habit today!"])
      else
        (habitLogs, [ConsoleError "Error logging habit completion:"])
  end.

End HabitsList.

(** ** The habit form *)

Module HabitForm.

(** The new [custom_days] of the form after a click on the box of [day]. *)
Definition handleCustomDayToggle (day : Z) (custom_days : list Z) : list Z :=
  let currentDays := custom_days in
  let index := JS.indexOf currentDays day in
  if -1 <? index then JS.splice1 currentDays index
  else currentDays ++ [day].

End HabitForm.

(** ** The categories page *)

Module CategoriesList.

Definition handleDeleteCategory (confirmed : bool) (deleted : Settled) (id : string)
    (categories : list Category) : list Category * list Effect :=
  if confirmed then
    match deleted with
    | Resolved => (filter (λ c, cat_id c ≠ id) categories, [])
    | Rejected _ => (categories, [ConsoleError "Error deleting category:"])
    end
  else (categories, []).

End CategoriesList.

(** ** The statistics pages *)


Module HabitStats.


End HabitStats.

Module StatsOverview.

(** The stats of a habit as the overview reads them.  The completion
    rate is a JS number, a binary64 double; the streaks are counts. *)
Record Stats : Type := mkStats {
  completion_rate : float;
  current_streak : N;
  longest_streak : N
}.

Record OverallStats : Type := mkOverallStats {
  averageCompletionRate : float;
  totalStreaks : N;
  longestStreak : N
}.

(** The object [habitStats] is given by its own properties, in the order
    in which [Object.keys] and [Object.values] list them. *)
Definition Object_keys (habitStats : list (string * Stats)) : list string :=
  habitStats.*1.
Definition Object_values (habitStats : list (string * Stats)) : list Stats :=
  habitStats.*2.

(** The length of an array as a JS number (exact: lengths are below 2^32). *)
Definition number_of_length (n : nat) : float :=
  PrimFloat.of_uint63 (Uint63.of_Z (Z.of_nat n)).

(** The three accumulators of the [forEach], after one more [stat]. *)
Definition accumulate (acc : float * N * N) (stat : Stats) : float * N * N :=
  let '(totalCompletionRate, totalStreaks, longestStreak) := acc in
  (PrimFloat.add totalCompletionRate (completion_rate stat),
   (totalStreaks + current_streak stat)%N,
   N.max longestStreak (longest_streak stat)).

Definition calculateOverallStats (habitStats : list (string * Stats)) : OverallStats :=
  if Nat.eqb (length (Object_keys habitStats)) 0 then
    {| averageCompletionRate := 0%float; totalStreaks := 0%N; longestStreak := 0%N |}
  else
    let '(totalCompletionRate, totalStreaks, longestStreak) :=
      foldl accumulate (0%float, 0%N, 0%N) (Object_values habitStats) in
    {| averageCompletionRate :=
         PrimFloat.div totalCompletionRate
           (number_of_length (length (Object_keys habitStats)));
       totalStreaks := totalStreaks;
       longestStreak := longestStreak |}.

End StatsOverview.

(** ** Vocabulary of the properties *)

(** The frequency model in the words of the data model: daily habits are
    due every day, weekly habits on Monday (day 1), custom habits on the
    days listed in [custom_days] (none when the list is missing). *)
Definition DueOn (dayOfWeek : Z) (habit : Habit) : Prop :=
  frequency habit = "daily"
  ∨ (frequency habit = "weekly" ∧ dayOfWeek = 1)
  ∨ (frequency habit = "custom" ∧ dayOfWeek ∈ default [] (custom_days habit)).

Global Instance DueOn_dec dayOfWeek habit : Decision (DueOn dayOfWeek habit).
Proof. unfold DueOn. apply _. Defined.

(** Sums and maxima of lists of numbers, the yardsticks for the aggregation. *)
(** The time values of valid JS dates: at most 8.64e15 ms from the epoch.
    Within this range the time arithmetic of the client is exact in
    doubles. *)
Definition valid_time (d : Date) : Prop :=
  -8640000000000000 <= d <= 8640000000000000.

(** The sum of a list of doubles as JS adds them: from 0, left to right. *)
Definition double_sum (l : list float) : float := foldl PrimFloat.add 0%float l.
Definition N_sum (l : list N) : N := foldr N.add 0%N l.
Definition N_maximum (l : list N) : N := foldr N.max 0%N l.

(** The guard of an iteration: a non-zero [notify_before] and not completed. *)
Definition armed (c : Countdown) : Prop :=
  (∃ n, notify_before c = Some n ∧ n ≠ 0) ∧ is_completed c = false.

(** The one-minute window that starts at [start], both ends included. *)
Definition in_window (start now : Date) : Prop := start <= now <= start + 60000.

Definition notifyTime (c : Countdown) : Date :=
  target_date c - default 0 (notify_before c) * 60000.

Definition reminder (c : Countdown) : Effect :=
  ShowNotification ("Countdown Reminder: " +:+ cd_title c)
    ("Your countdown will complete in " +:+ pretty (default 0 (notify_before c))
       +:+ " minutes!").

Definition completion (c : Countdown) : Effect :=
  ShowNotification ("Countdown Complete: " +:+ cd_title c)
    ("Your countdown " +:+ JS.dquote +:+ cd_title c +:+ JS.dquote +:+ " is now complete!").

Definition sound : Effect := PlayAudio "/notification.mp3".

Definition update (API : string) (c : Countdown) : Effect :=
  AxiosPut (API +:+ "/countdowns/" +:+ cd_id c) (with_is_completed c true).

(** * Further parts of the client *)

(** ** The countdowns page: what a card shows *)

Module CountdownCard.

(** [isExpired] of a card: the countdown has run out or is marked completed. *)
Definition isExpired (now : Date) (countdown : Countdown) : bool :=
  let timeRemaining := calculateTimeRemaining now (target_date countdown) in
  isComplete timeRemaining || is_completed countdown.

End CountdownCard.

(** ** The countdown form *)

Module CountdownForm.

(** The value of the [notify_before] field: a number from the initial state
    or from a loaded countdown, the text of the chosen option after a
    change of the select box. *)
Inductive FieldValue : Type :=
  | NumberValue (n : Z)
  | TextValue (s : string).

Record FormData : Type := mkFormData {
  fd_title : string;
  fd_description : string;
  fd_target_date : Date;
  fd_notify_before : FieldValue;
  fd_is_timer : bool
}.

(** The initial states; [now] is the clock reading at mount.  The timer
    fields are separate pieces of state and are not loaded from a stored
    countdown. *)
Definition initialTimerHours : Z := 0.
Definition initialTimerMinutes : Z := 0.

Definition initialFormData (now : Date) : FormData :=
  {| fd_title := EmptyString; fd_description := EmptyString; fd_target_date := now;
     fd_notify_before := NumberValue 30; fd_is_timer := false |}.

(** What [fetchCountdown] puts in the form in edit mode. *)
Definition loadFormData (countdown : Countdown) : FormData :=
  {| fd_title := cd_title countdown;
     fd_description := cd_description countdown;
     fd_target_date := target_date countdown;
     fd_notify_before :=
       NumberValue (if JS.truthy_num (notify_before countdown)
                    then default 0 (notify_before countdown) else 30);
     fd_is_timer := is_timer countdown |}.

Definition handleDateChange (date : Date) (prev : FormData) : FormData :=
  {| fd_title := fd_title prev; fd_description := fd_description prev;
     fd_target_date := date; fd_notify_before := fd_notify_before prev;
     fd_is_timer := fd_is_timer prev |}.

Definition handleSwitchChange (prev : FormData) : FormData :=
  {| fd_title := fd_title prev; fd_description := fd_description prev;
     fd_target_date := fd_target_date prev; fd_notify_before := fd_notify_before prev;
     fd_is_timer := negb (fd_is_timer prev) |}.

Definition calculateTimerDate (now : Date) (timerHours timerMinutes : Z) : Date :=
  now + (timerHours * 60 * 60 * 1000) + (timerMinutes * 60 * 1000).

(** The payload of [handleSubmit]; [now] is the clock reading of the call. *)
Definition submitPayload (now : Date) (timerHours timerMinutes : Z)
    (formData : FormData) : FormData :=
  if fd_is_timer formData then
    {| fd_title := fd_title formData; fd_description := fd_description formData;
       fd_target_date := calculateTimerDate now timerHours timerMinutes;
       fd_notify_before := fd_notify_before formData;
       fd_is_timer := fd_is_timer formData |}
  else formData.

Inductive Outcome : Type :=
  | Put (url : string) (payload : FormData)
  | Post (url : string) (payload : FormData)
  | Redirect (href : string)
  | SetError (message : string).

(** [handleSubmit]: the request, then the redirect when it succeeds and
    the error message when it fails. *)
Definition handleSubmit (API : string) (isEditMode : bool) (countdownId : string)
    (now : Date) (timerHours timerMinutes : Z) (formData : FormData)
    (saved : Settled) : list Outcome :=
  let payload := submitPayload now timerHours timerMinutes formData in
  let request :=
    if isEditMode then Put (API +:+ "/countdowns/" +:+ countdownId) payload
    else Post (API +:+ "/countdowns") payload in
  match saved with
  | Resolved => [request; Redirect "/countdowns"]
  | Rejected _ => [request; SetError "Failed to save countdown"]
  end.

End CountdownForm.

(** ** Asking for notification permission *)

Module Notifications.

Inductive Interaction : Type :=
  | AlertUnsupported (message : string)   (* [alert(...)] *)
  | RequestPermission.                    (* [Notification.requestPermission()] *)

(** [requestNotificationPermission]: [supported] tells whether the browser
    has [Notification], [permission] is [Notification.permission] at the
    call and [answer] is what the permission prompt resolves to, which is
    the permission from then on.  The result is the returned boolean, the
    permission after the call and the interactions with the user. *)
Definition requestNotificationPermission (supported : bool) (permission : Permission)
    (answer : Permission) : bool * Permission * list Interaction :=
  if negb supported then
    (false, permission, [AlertUnsupported "This browser does not support desktop notification"])
  else if bool_decide (permission = granted) then (true, permission, [])
  else if bool_decide (permission ≠ denied) then
    (bool_decide (answer = granted), answer, [RequestPermission])
  else (false, permission, []).

End Notifications.

(** ** The habit form: submitting *)

Module HabitFormSubmit.

Record FormData : Type := mkFormData {
  fd_title : string;
  fd_description : string;
  fd_frequency : string;
  fd_custom_days : list Z;
  fd_category_id : string
}.

(** The payload: the form data, with [custom_days] deleted unless the
    frequency is custom. *)
Record Payload : Type := mkPayload {
  p_title : string;
  p_description : string;
  p_frequency : string;
  p_custom_days : option (list Z);   (* [None]: the property is absent *)
  p_category_id : string
}.

Definition initialFormData : FormData :=
  {| fd_title := EmptyString; fd_description := EmptyString; fd_frequency := "daily";
     fd_custom_days := []; fd_category_id := EmptyString |}.

(** What [fetchData] puts in the form in edit mode. *)
Definition loadFormData (habit : Habit) : FormData :=
  {| fd_title := hb_title habit;
     fd_description := hb_description habit;
     fd_frequency :=
       if bool_decide (frequency habit = EmptyString) then "daily" else frequency habit;
     fd_custom_days := default [] (custom_days habit);
     fd_category_id := default EmptyString (category_id habit) |}.

(** [handleCustomDayToggle] on the form state. *)
Definition toggleDay (day : Z) (prev : FormData) : FormData :=
  {| fd_title := fd_title prev; fd_description := fd_description prev;
     fd_frequency := fd_frequency prev;
     fd_custom_days := HabitForm.handleCustomDayToggle day (fd_custom_days prev);
     fd_category_id := fd_category_id prev |}.

(** The tick of the box of day [index]. *)
Definition dayChecked (formData : FormData) (index : Z) : bool :=
  JS.includes (fd_custom_days formData) index.

Definition submitPayload (formData : FormData) : Payload :=
  {| p_title := fd_title formData;
     p_description := fd_description formData;
     p_frequency := fd_frequency formData;
     p_custom_days :=
       if bool_decide (fd_frequency formData ≠ "custom") then None
       else Some (fd_custom_days formData);
     p_category_id := fd_category_id formData |}.

Inductive Outcome : Type :=
  | Put (url : string) (payload : Payload)
  | Post (url : string) (payload : Payload)
  | Redirect (href : string)
  | SetError (message : string).

Definition handleSubmit (API : string) (isEditMode : bool) (habitId : string)
    (formData : FormData) (saved : Settled) : list Outcome :=
  let payload := submitPayload formData in
  let request :=
    if isEditMode then Put (API +:+ "/habits/" +:+ habitId) payload
    else Post (API +:+ "/habits") payload in
  match saved with
  | Resolved => [request; Redirect "/habits"]
  | Rejected _ => [request; SetError "Failed to save habit"]
  end.

End HabitFormSubmit.

(** A run of clicks on the day boxes, first click first. *)
Definition toggleDays (clicks : list Z) (custom_days : list Z) : list Z :=
  foldl (λ days day, HabitForm.handleCustomDayToggle day days) custom_days clicks.

(** ** More JavaScript primitives *)

Module JSMore.

(** Truthiness of a string-or-null value: null, undefined and the empty
    string are falsy. *)
Definition truthy_str (v : option string) : bool :=
  match v with
  | Some s => negb (bool_decide (s = EmptyString))
  | None => false
  end.

(** [arr.find(p)]: the first element that satisfies [p], if any. *)
Fixpoint find {A} (p : A → bool) (arr : list A) : option A :=
  match arr with
  | [] => None
  | x :: arr' => if p x then Some x else find p arr'
  end.

End JSMore.

(** ** Plain objects used as maps

    An object literal [{}] has no property of its own but inherits the
    members of [Object.prototype].  An object is given by the finite map
    of its own properties. *)

Module JSObject.

(** The names of the members every plain object inherits. *)
Definition inheritedKeys : list string :=
  ["constructor"; "__defineGetter__"; "__defineSetter__"; "hasOwnProperty";
   "__lookupGetter__"; "__lookupSetter__"; "isPrototypeOf";
   "propertyIsEnumerable"; "toString"; "valueOf"; "__proto__";
   "toLocaleString"].

Definition inherits (key : string) : bool := bool_decide (key ∈ inheritedKeys).

(** What [obj[key]] reads: the own property; failing that an inherited
    member, which is a function (the prototype itself under ["__proto__"]),
    hence truthy and not an array; failing that [undefined]. *)
Inductive Member (A : Type) : Type :=
  | Own (value : A)
  | Inherited
  | Undefined.
Arguments Own {A} value.
Arguments Inherited {A}.
Arguments Undefined {A}.

Definition get {A} (obj : gmap string A) (key : string) : Member A :=
  match obj !! key with
  | Some value => Own value
  | None => if inherits key then Inherited else Undefined
  end.

(** [obj[key] = value] for a primitive [value]: the own property is
    created or overwritten, except that under ["__proto__"], while the
    object has no own property of that name, the inherited setter takes
    the assignment and ignores a primitive. *)
Definition set_primitive {A} (obj : gmap string A) (key : string) (value : A)
    : gmap string A :=
  match obj !! key with
  | None => if bool_decide (key = "__proto__") then obj else <[key := value]> obj
  | Some _ => <[key := value]> obj
  end.

End JSObject.

(** How a request that returns data settles. *)
Inductive Response (A : Type) : Type :=
  | Ok (data : A)
  | Failed.
Arguments Ok {A} data.
Arguments Failed {A}.

(** ** The habits page: categories and groups *)

Module HabitsListView.

Definition getCategoryColor (categories : list Category) (categoryId : option string) : string :=
  if negb (JSMore.truthy_str categoryId) then "gray-500"
  else
    match JSMore.find (λ c, bool_decide (Some (cat_id c) = categoryId)) categories with
    | Some category => cat_color category
    | None => "gray-500"
    end.

Definition getCategoryName (categories : list Category) (categoryId : option string) : string :=
  if negb (JSMore.truthy_str categoryId) then "Uncategorized"
  else
    match JSMore.find (λ c, bool_decide (Some (cat_id c) = categoryId)) categories with
    | Some category => cat_name category
    | None => "Uncategorized"
    end.

(** [habit.category_id || "uncategorized"] *)
Definition groupKey (habit : Habit) : string :=
  if JSMore.truthy_str (category_id habit) then default EmptyString (category_id habit)
  else "uncategorized".

(** One step of the grouping loop; [None] is the [TypeError] of
    [habitsByCategory[categoryId].push] when the key names an inherited
    member: that member is truthy, so no array is stored, and it has no
    [push]. *)
Definition groupStep (habitsByCategory : gmap string (list Habit)) (habit : Habit)
    : option (gmap string (list Habit)) :=
  let categoryId := groupKey habit in
  match JSObject.get habitsByCategory categoryId with
  | JSObject.Undefined =>
      Some (alter (λ group, group ++ [habit]) categoryId
              (<[categoryId := []]> habitsByCategory))
  | JSObject.Own _ =>
      Some (alter (λ group, group ++ [habit]) categoryId habitsByCategory)
  | JSObject.Inherited => None
  end.

(** The [forEach] over the habits; an exception ends it. *)
Definition habitsByCategory (habits : list Habit) : option (gmap string (list Habit)) :=
  foldl (λ acc habit, acc ≫= λ groups, groupStep groups habit) (Some ∅) habits.

(** The heading of the group of key [categoryId]. *)
Definition groupHeading (categories : list Category) (categoryId : string) : string :=
  getCategoryName categories
    (if bool_decide (categoryId = "uncategorized") then None else Some categoryId).

(** Whether the card of a habit shows "Completed Today": the truthiness
    of [habitLogs[habit.id]]. *)
Definition completedToday (habitLogs : gmap string bool) (habit : Habit) : bool :=
  match JSObject.get habitLogs (hb_id habit) with
  | JSObject.Own flag => flag
  | JSObject.Inherited => true
  | JSObject.Undefined => false
  end.

Record HabitLog : Type := mkHabitLog {
  log_id : string;
  log_habit_id : string;
  completed_at : Date
}.

(** The loop of [fetchData] over the habits: each habit comes with the
    fate of the request for its logs of today. *)
Definition fetchLogsMap (responses : list (Habit * Response (list HabitLog)))
    : gmap string bool :=
  foldl (λ logsMap '(habit, logsResponse),
           match logsResponse with
           | Ok data =>
               JSObject.set_primitive logsMap (hb_id habit)
                 (bool_decide (0 < length data)%nat)
           | Failed => JSObject.set_primitive logsMap (hb_id habit) false
           end)
        ∅ responses.

End HabitsListView.

(** ** The categories page: adding a category *)

Module CategoryForm.

Record NewCategory : Type := mkNewCategory {
  nc_name : string;
  nc_color : string
}.

Record State : Type := mkState {
  categories : list Category;
  newCategory : NewCategory;
  isAdding : bool;
  error : string
}.

Definition emptyForm : NewCategory := {| nc_name := EmptyString; nc_color := "4f46e5" |}.

Inductive Request : Type :=
  | PostCategory (url : string) (payload : NewCategory).

Section WithTrim.

(** [String.prototype.trim], left open. *)
Variable trim : string → string.
Variable API : string.

(** [handleSubmit]; [created] is the fate of the POST, with the category
    the server answers. *)
Definition handleSubmit (created : Response Category) (state : State)
    : State * list Request :=
  if bool_decide (trim (nc_name (newCategory state)) = EmptyString) then
    ({| categories := categories state; newCategory := newCategory state;
        isAdding := isAdding state; error := "Category name is required" |}, [])
  else
    match created with
    | Ok data =>
        ({| categories := categories state ++ [data]; newCategory := emptyForm;
            isAdding := false; error := EmptyString |},
         [PostCategory (API +:+ "/categories") (newCategory state)])
    | Failed =>
        ({| categories := categories state; newCategory := newCategory state;
            isAdding := isAdding state; error := "Failed to create category" |},
         [PostCategory (API +:+ "/categories") (newCategory state)])
    end.

End WithTrim.

End CategoryForm.

(** ** The theme *)

Module Theme.

(** The dark mode the provider settles on at mount: the saved preference
    when there is one, the preference of the system otherwise. *)
Definition initialDarkMode (savedTheme : option string) (prefersDark : bool) : bool :=
  if JSMore.truthy_str savedTheme then bool_decide (savedTheme = Some "true")
  else prefersDark.

(** [darkMode.toString()], the value saved under the key [darkMode]. *)
Definition savedValue (darkMode : bool) : string :=
  if darkMode then "true" else "false".

Definition toggleDarkMode (prevMode : bool) : bool := negb prevMode.

End Theme.

(** ** The statistics page of a habit: the bar chart and the logs *)

Module HabitStatsView.

Section WithDateString.

(** [Date.prototype.toDateString], the text of the local calendar day of
    a date, left open. *)
Variable toDateString : Date → string.

(** One step of the loop that counts the logs per day. *)
Definition countStep (logsByDate : gmap string nat) (log : HabitsListView.HabitLog)
    : gmap string nat :=
  let date := toDateString (HabitsListView.completed_at log) in
  <[date := (default 0%nat (logsByDate !! date) + 1)%nat]> logsByDate.

Definition logsByDate (logs : list HabitsListView.HabitLog) : gmap string nat :=
  foldl countStep ∅ logs.

(** The bars of the chart, one per day of [last7Days]. *)
Definition barData (last7Days : list Date) (logs : list HabitsListView.HabitLog) : list nat :=
  (λ date, default 0%nat (logsByDate logs !! toDateString date)) <$> last7Days.

End WithDateString.

(** The handler of the bin of a log. *)
Definition handleDeleteLog (confirmed : bool) (deleted : Settled) (logId : string)
    (logs : list HabitsListView.HabitLog) : list HabitsListView.HabitLog * list Effect :=
  if confirmed then
    match deleted with
    | Resolved => (filter (λ l, HabitsListView.log_id l ≠ logId) logs, [])
    | Rejected _ => (logs, [ConsoleError "Error deleting log:"])
    end
  else (logs, []).

(** The logs listed under "Recent Logs". *)
Definition recentLogs (logs : list HabitsListView.HabitLog) : list HabitsListView.HabitLog :=
  JS.slice0 10 logs.

End HabitStatsView.

(** ** Paths: the links of the pages and what the pages read back *)

Module JSString.

(** [s.includes(sub)]. *)
Fixpoint includes (sub s : string) : bool :=
  String.prefix sub s
  || match s with
     | EmptyString => false
     | String _ s' => includes sub s'
     end.

(** [s.split(sep)] for a non-empty [sep], read from the left: [piece] is
    the piece being gathered and [skip] the number of characters of a
    separator just found that are still to pass. *)
Fixpoint split_go (sep : string) (skip : nat) (piece : string) (s : string) : list string :=
  match s with
  | EmptyString => [piece]
  | String c s' =>
      match skip with
      | S k => split_go sep k piece s'
      | O =>
          if String.prefix sep s
          then piece :: split_go sep (String.length sep - 1) EmptyString s'
          else split_go sep O (piece +:+ String c EmptyString) s'
      end
  end.

Definition split (sep s : string) : list string := split_go sep 0 EmptyString s.

(** The character [/]. *)
Definition slash : Ascii.ascii := Ascii.Ascii true true true true false true false false.

Fixpoint has_char (c : Ascii.ascii) (s : string) : bool :=
  match s with
  | EmptyString => false
  | String c' s' => bool_decide (c' = c) || has_char c s'
  end.

End JSString.

Module Paths.

(** The texts the cards give to [Link]; the router, which is not part of
    the client's source, derives the pathname of the page from them. *)
Definition countdownEditLink (id : string) : string := "/countdowns/edit/" +:+ id.
Definition habitEditLink (id : string) : string := "/habits/edit/" +:+ id.
Definition habitStatsLink (id : string) : string := "/habits/" +:+ id +:+ "/stats".

(** What the two forms read from the path. *)
Definition isEditMode (pathname : string) : bool := JSString.includes "/edit/" pathname.



(** The tabs of the navigation bar that are lit: home, countdowns, habits,
    stats. *)
Definition activeTabs (pathname : string) : bool * bool * bool * bool :=
  (bool_decide (pathname = "/"),
   JSString.includes "/countdowns" pathname,
   JSString.includes "/habits" pathname,
   JSString.includes "/stats" pathname).

End Paths.

(** * Properties *)

(** ** Countdown arithmetic *)

Lemma rem_mod_nonneg a b : 0 <= a → 0 < b → JS.remainder a b = a mod b.
Proof. intros Ha Hb. unfold JS.remainder. apply Z.rem_mod_nonneg; lia. Qed.

(** C4. [calculateTimeRemaining] splits the whole-second difference [d]
    between target and now: all zero and complete when [d <= 0]; otherwise
    not complete, with days, hours, minutes and seconds the successive
    quotients and remainders of [d], which recompose to [d] with
    hours < 24, minutes < 60 and seconds < 60. *)
Theorem calculateTimeRemaining_spec (now target : Date) :
  let d := DateFns.differenceInSeconds target now in
  let r := calculateTimeRemaining now target in
  (d <= 0 →
     r = {| days := 0; hours := 0; minutes := 0; seconds := 0; isComplete := true |})
  ∧ (0 < d →
       isComplete r = false
       ∧ days r = d / 86400
       ∧ hours r = (d mod 86400) / 3600
       ∧ minutes r = (d mod 3600) / 60
       ∧ seconds r = d mod 60
       ∧ days r * 86400 + hours r * 3600 + minutes r * 60 + seconds r = d
       ∧ 0 <= days r
       ∧ 0 <= hours r < 24
       ∧ 0 <= minutes r < 60
       ∧ 0 <= seconds r < 60).
Proof.
  intros d r. subst r. unfold calculateTimeRemaining. fold d.
  split; intros Hd.
  - apply Z.leb_le in Hd. by rewrite Hd.
  - assert ((d <=? 0) = false) as -> by (apply Z.leb_gt; lia).
    cbn [isComplete days hours minutes seconds]. unfold JS.floor_div.
    rewrite !rem_mod_nonneg by lia.
    change (24 * 60 * 60) with 86400. change (60 * 60) with 3600.
    repeat split; try reflexivity.
    + pose proof (Z.div_mod d 86400). pose proof (Z.div_mod (d mod 86400) 3600).
      pose proof (Z.div_mod d 3600). pose proof (Z.div_mod (d mod 3600) 60).
      pose proof (Z.div_mod d 60).
      assert (d mod 3600 = (d mod 86400) mod 3600) as E1.
      { symmetry. apply Z.mod_mod_divide. exists 24. reflexivity. }
      assert (d mod 60 = (d mod 3600) mod 60) as E2.
      { symmetry. apply Z.mod_mod_divide. exists 60. reflexivity. }
      lia.
    + apply Z.div_pos; lia.
    + apply Z.div_pos; [apply Z.mod_pos_bound|]; lia.
    + apply Z.div_lt_upper_bound; [lia|]. pose proof (Z.mod_pos_bound d 86400). lia.
    + apply Z.div_pos; [apply Z.mod_pos_bound|]; lia.
    + apply Z.div_lt_upper_bound; [lia|]. pose proof (Z.mod_pos_bound d 3600). lia.
    + apply Z.mod_pos_bound; lia.
    + apply Z.mod_pos_bound; lia.
Qed.

Example calculateTimeRemaining_examples :
  calculateTimeRemaining 1000 (1000 + 93784999)
  = {| days := 1; hours := 2; minutes := 3; seconds := 4; isComplete := false |}
  ∧ calculateTimeRemaining 5000 5999
    = {| days := 0; hours := 0; minutes := 0; seconds := 0; isComplete := true |}
  ∧ calculateTimeRemaining 5000 1000
    = {| days := 0; hours := 0; minutes := 0; seconds := 0; isComplete := true |}.
Proof. repeat split. Qed.

(** ** The home view: upcoming countdowns *)

Section SortByKey.

Context {A : Type} (key : A → Z).

Local Abbreviation compare := (λ a b : A, key a - key b).
Local Abbreviation ascending := (λ a b : A, key a <= key b).

Lemma sort_insert_Permutation (x : A) (l : list A) :
  JS.sort_insert compare x l ≡ₚ x :: l.
Proof.
  induction l as [|y l IH]; simpl; [done|].
  destruct (compare x y <=? 0); [done|].
  rewrite IH. apply Permutation_swap.
Qed.

Lemma sort_Permutation (l : list A) : JS.sort compare l ≡ₚ l.
Proof.
  induction l as [|x l IH]; simpl; [done|].
  rewrite sort_insert_Permutation. by rewrite IH.
Qed.

Lemma sort_insert_StronglySorted (x : A) (l : list A) :
  StronglySorted ascending l → StronglySorted ascending (JS.sort_insert compare x l).
Proof.
  induction 1 as [|y l Hl IH Hy]; simpl.
  - repeat constructor.
  - destruct (Z.leb_spec (key x - key y) 0) as [Hle|Hgt].
    + constructor; [by constructor|].
      constructor; [lia|].
      eapply Forall_impl; [exact Hy|]. simpl. intros z Hz. lia.
    + constructor; [exact IH|].
      rewrite sort_insert_Permutation. constructor; [lia|exact Hy].
Qed.

Lemma sort_StronglySorted (l : list A) : StronglySorted ascending (JS.sort compare l).
Proof.
  induction l as [|x l IH]; simpl; [constructor|].
  by apply sort_insert_StronglySorted.
Qed.

End SortByKey.

(** C7. The upcoming-countdowns list of the home view is the first three
    entries of an arrangement, ascending in [target_date], of exactly the
    countdowns whose [target_date] is strictly after the current time. *)
Theorem activeCountdowns_spec (now : Date) (countdowns : list Countdown) :
  ∃ upcoming : list Countdown,
    upcoming ≡ₚ filter (λ c, now < target_date c) countdowns
    ∧ (∀ c, c ∈ upcoming ↔ c ∈ countdowns ∧ now < target_date c)
    ∧ StronglySorted (λ a b, target_date a <= target_date b) upcoming
    ∧ Home.activeCountdowns now countdowns = take 3 upcoming.
Proof.
  exists (JS.sort (λ a b, target_date a - target_date b)
            (filter (λ c, now < target_date c) countdowns)).
  split; [apply sort_Permutation|].
  split.
  - intros c. rewrite (sort_Permutation target_date), list_elem_of_filter. tauto.
  - split; [apply (sort_StronglySorted target_date)|reflexivity].
Qed.

(** The shown countdowns are upcoming ones, at most three, in ascending
    order of [target_date]. *)
Lemma activeCountdowns_soonest (now : Date) (countdowns : list Countdown) :
  let active := Home.activeCountdowns now countdowns in
  length active = Nat.min 3 (length (filter (λ c, now < target_date c) countdowns))
  ∧ (∀ c, c ∈ active → c ∈ countdowns ∧ now < target_date c)
  ∧ StronglySorted (λ a b, target_date a <= target_date b) active.
Proof.
  unfold Home.activeCountdowns, JS.slice0.
  set (up := JS.sort _ _).
  assert (up ≡ₚ filter (λ c, now < target_date c) countdowns) as Hperm
    by apply sort_Permutation.
  assert (StronglySorted (λ a b, target_date a <= target_date b) up) as Hsorted
    by apply (sort_StronglySorted target_date).
  simpl. split; [by rewrite length_take, Hperm|].
  split.
  - intros c Hc. apply elem_of_take in Hc as (i & Hi & _).
    apply list_elem_of_lookup_2 in Hi. rewrite Hperm, list_elem_of_filter in Hi. tauto.
  - clear -Hsorted. generalize 3%nat.
    induction Hsorted as [|x l Hl IH Hx]; intros [|n]; simpl; try constructor; auto.
    apply Forall_take. exact Hx.
Qed.

Example activeCountdowns_example :
  let c (k : string) (t : Z) := mkCountdown k k EmptyString t None false false in
  Home.activeCountdowns 100 [c "a" 500; c "b" 100; c "c" 300; c "d" 200; c "e" 50; c "f" 400]
  = [c "d" 200; c "c" 300; c "f" 400].
Proof. reflexivity. Qed.

(** ** The home view: today's habits *)

Lemma includes_elem_of (arr : list Z) (x : Z) : JS.includes arr x = true ↔ x ∈ arr.
Proof. unfold JS.includes. apply bool_decide_eq_true. Qed.

Lemma scheduledToday_DueOn (dayOfWeek : Z) (habit : Habit) :
  Home.scheduledToday dayOfWeek habit = true ↔ DueOn dayOfWeek habit.
Proof.
  unfold Home.scheduledToday, DueOn.
  destruct (bool_decide_reflect (frequency habit = "daily")) as [Hd|Hd].
  { split; auto. }
  destruct (bool_decide_reflect (frequency habit = "weekly")) as [Hw|Hw]; simpl.
  - destruct (Z.eqb_spec dayOfWeek 1) as [H1|H1]; [split; auto|].
    assert (bool_decide (frequency habit = "custom") = false) as ->.
    { apply bool_decide_eq_false. rewrite Hw. discriminate. }
    simpl. split; [discriminate|].
    intros [?|[[_ ?]|[Hc _]]]; [tauto|tauto|]. rewrite Hw in Hc. discriminate.
  - destruct (bool_decide_reflect (frequency habit = "custom")) as [Hc|Hc]; simpl.
    + destruct (custom_days habit) as [days|]; simpl.
      * destruct (JS.includes days dayOfWeek) eqn:Hin.
        -- apply includes_elem_of in Hin. split; auto.
        -- split; [discriminate|].
           intros [?|[[? _]|[_ Hin']]]; [tauto|tauto|].
           apply includes_elem_of in Hin'. congruence.
      * split; [discriminate|].
        intros [?|[[? _]|[_ Hin]]]; [tauto|tauto|]. by apply elem_of_nil in Hin.
    + split; [discriminate|]. intros [?|[[? _]|[? _]]]; tauto.
Qed.

Lemma DueOn_custom_days (dayOfWeek : Z) (habit : Habit) :
  dayOfWeek ∈ default [] (custom_days habit)
  ↔ ∃ days, custom_days habit = Some days ∧ dayOfWeek ∈ days.
Proof.
  destruct (custom_days habit) as [days|]; simpl.
  - split; [eauto|]. by intros (? & [= <-] & ?).
  - split; [by intros ?%elem_of_nil|]. by intros (? & [=] & _).
Qed.

(** C5. A habit is selected for today exactly when it is daily, or weekly
    and today is day 1 (Monday), or custom with today's day index in its
    [custom_days]; the view shows the first three selected habits, in
    list order. *)
Theorem todaysHabits_spec (dayOfWeek : Z) (habits : list Habit) :
  (∀ habit, Home.scheduledToday dayOfWeek habit = true ↔
     frequency habit = "daily"
     ∨ (frequency habit = "weekly" ∧ dayOfWeek = 1)
     ∨ (frequency habit = "custom"
        ∧ ∃ days, custom_days habit = Some days ∧ dayOfWeek ∈ days))
  ∧ Home.todaysHabits dayOfWeek habits = take 3 (filter (DueOn dayOfWeek) habits)
  ∧ (∀ habit, habit ∈ Home.todaysHabits dayOfWeek habits →
       habit ∈ habits ∧ DueOn dayOfWeek habit)
  ∧ (length (Home.todaysHabits dayOfWeek habits) ≤ 3)%nat.
Proof.
  split.
  { intros habit. rewrite scheduledToday_DueOn. unfold DueOn.
    by rewrite DueOn_custom_days. }
  assert (Home.todaysHabits dayOfWeek habits
          = take 3 (filter (DueOn dayOfWeek) habits)) as E.
  { unfold Home.todaysHabits, JS.slice0. f_equal.
    apply list_filter_iff. intros h. apply scheduledToday_DueOn. }
  split; [exact E|]. rewrite E. split.
  - intros h Hh. apply elem_of_take in Hh as (i & Hi & _).
    apply list_elem_of_lookup_2, list_elem_of_filter in Hi. tauto.
  - rewrite length_take. lia.
Qed.

Example todaysHabits_example :
  let h (k f : string) (cd : option (list Z)) := mkHabit k k EmptyString f cd None in
  Home.todaysHabits 3
    [h "run" "weekly" None; h "read" "daily" None; h "swim" "custom" (Some [1; 3]);
     h "sing" "custom" (Some [2]); h "walk" "custom" None; h "code" "daily" None;
     h "cook" "daily" None]
  = [h "read" "daily" None; h "swim" "custom" (Some [1; 3]); h "code" "daily" None].
Proof. reflexivity. Qed.

(** ** Deleting an entity *)

Section DeleteById.

Context {A : Type} `{HasId A}.

(** What [list.filter(x => x.id !== id)] keeps and what it drops. *)
Lemma filter_other_ids (id : string) (l : list A) :
  let l' := filter (λ x, id_of x ≠ id) l in
  (∀ x, x ∈ l' ↔ x ∈ l ∧ id_of x ≠ id)
  ∧ l' `sublist_of` l
  ∧ l' ++ filter (λ x, id_of x = id) l ≡ₚ l
  ∧ filter (λ x, id_of x ≠ id) l' = l'.
Proof.
  simpl. split; [|split; [|split]].
  - intros x. rewrite list_elem_of_filter. tauto.
  - apply sublist_filter.
  - rewrite <- (filter_app_complement (λ x, id_of x ≠ id) l) at 3.
    f_equiv. apply reflexive_eq, list_filter_iff. intros x.
    destruct (decide (id_of x = id)); tauto.
  - induction l as [|x l IH]; [done|].
    rewrite filter_cons. case_decide; [|done].
    rewrite filter_cons. case_decide; [|done]. by rewrite IH.
Qed.

End DeleteById.

(** C8. After a confirmed and successful delete of a countdown, a habit or
    a category with a given id, the local list is the previous one without
    the entries carrying that id: the entries with another id are all
    kept, unchanged and in order, and only entries with the given id are
    dropped. *)
Theorem delete_removes_exactly_chosen (id : string) :
  (∀ countdowns : list Countdown,
     let countdowns' :=
       (CountdownsList.handleDeleteCountdown true Resolved id countdowns).1 in
     (∀ c, c ∈ countdowns' ↔ c ∈ countdowns ∧ cd_id c ≠ id)
     ∧ countdowns' `sublist_of` countdowns
     ∧ countdowns' ++ filter (λ c, cd_id c = id) countdowns ≡ₚ countdowns
     ∧ filter (λ c, cd_id c ≠ id) countdowns' = filter (λ c, cd_id c ≠ id) countdowns)
  ∧ (∀ habits : list Habit,
     let habits' := (HabitsList.handleDeleteHabit true Resolved id habits).1 in
     (∀ h, h ∈ habits' ↔ h ∈ habits ∧ hb_id h ≠ id)
     ∧ habits' `sublist_of` habits
     ∧ habits' ++ filter (λ h, hb_id h = id) habits ≡ₚ habits
     ∧ filter (λ h, hb_id h ≠ id) habits' = filter (λ h, hb_id h ≠ id) habits)
  ∧ (∀ categories : list Category,
     let categories' :=
       (CategoriesList.handleDeleteCategory true Resolved id categories).1 in
     (∀ c, c ∈ categories' ↔ c ∈ categories ∧ cat_id c ≠ id)
     ∧ categories' `sublist_of` categories
     ∧ categories' ++ filter (λ c, cat_id c = id) categories ≡ₚ categories
     ∧ filter (λ c, cat_id c ≠ id) categories' = filter (λ c, cat_id c ≠ id) categories).
Proof.
  split; [|split]; intros l; simpl.
  - apply (filter_other_ids (A:=Countdown) id l).
  - apply (filter_other_ids (A:=Habit) id l).
  - apply (filter_other_ids (A:=Category) id l).
Qed.

(** A delete that is not confirmed, or whose request fails, leaves the
    list as it was. *)
Lemma delete_unconfirmed_or_failed (id : string) (countdowns : list Countdown)
    (habits : list Habit) (categories : list Category)
    (confirmed : bool) (deleted : Settled) :
  confirmed = false ∨ deleted ≠ Resolved →
  (CountdownsList.handleDeleteCountdown confirmed deleted id countdowns).1 = countdowns
  ∧ (HabitsList.handleDeleteHabit confirmed deleted id habits).1 = habits
  ∧ (CategoriesList.handleDeleteCategory confirmed deleted id categories).1 = categories.
Proof.
  intros [->|Hfail]; [done|].
  destruct confirmed, deleted; done.
Qed.

Example handleDeleteCountdown_example :
  let c (k : string) := mkCountdown k "t" EmptyString 0 None false false in
  CountdownsList.handleDeleteCountdown true Resolved "b" [c "a"; c "b"; c "c"; c "b"]
  = ([c "a"; c "c"], []).
Proof. reflexivity. Qed.

(** ** Logging a completion *)

(** C3. [handleLogCompletion] sets the logged-today flag of the habit when
    the POST succeeds, and a flag can only become true that way; when the
    POST fails with status 400 the client alerts that the habit was
    already logged today and the flags are left as they were, as they are
    after any failure. *)
Theorem handleLogCompletion_spec (habitId : string) (habitLogs : gmap string bool) :
  (HabitsList.handleLogCompletion Resolved habitId habitLogs).1 !! habitId = Some true
  ∧ (∀ posted h,
       (HabitsList.handleLogCompletion posted habitId habitLogs).1 !! h = Some true →
       habitLogs !! h = Some true ∨ (posted = Resolved ∧ h = habitId))
  ∧ HabitsList.handleLogCompletion (Rejected (Some 400)) habitId habitLogs
    = (habitLogs, [Alert "You've already logged this habit today!"])
  ∧ (∀ status,
       (HabitsList.handleLogCompletion (Rejected status) habitId habitLogs).1 = habitLogs).
Proof.
  repeat split.
  - simpl. apply lookup_insert_eq.
  - intros [|status] h; simpl.
    + destruct (decide (habitId = h)) as [->|Hne]; [auto|].
      rewrite lookup_insert_ne by done. auto.
    + case_bool_decide; simpl; auto.
  - intros status. simpl. by case_bool_decide.
Qed.

Example handleLogCompletion_examples :
  let habitLogs : gmap string bool := {[ "h1" := false ]} in
  HabitsList.handleLogCompletion Resolved "h1" habitLogs = ({[ "h1" := true ]}, [])
  ∧ HabitsList.handleLogCompletion (Rejected (Some 400)) "h1" habitLogs
    = (habitLogs, [Alert "You've already logged this habit today!"])
  ∧ HabitsList.handleLogCompletion (Rejected None) "h1" habitLogs
    = (habitLogs, [ConsoleError "Error logging habit completion:"]).
Proof.
  simpl. repeat split.
Qed.

(** A successful log touches the flag of no other habit. *)
Lemma handleLogCompletion_frame (habitId h : string) (habitLogs : gmap string bool) :
  h ≠ habitId →
  (HabitsList.handleLogCompletion Resolved habitId habitLogs).1 !! h = habitLogs !! h.
Proof. intros Hne. simpl. by rewrite lookup_insert_ne. Qed.

(** ** Statistics *)

Local Open Scope Qc_scope.



Local Close Scope Qc_scope.

(** ** The overview statistics *)

Lemma N_maximum_upper_bound (l : list N) (n : N) : n ∈ l → (n <= N_maximum l)%N.
Proof.
  induction 1 as [n l|n m l _ IH]; simpl; lia.
Qed.

Lemma N_maximum_attained (l : list N) : l ≠ [] → N_maximum l ∈ l.
Proof.
  induction l as [|n l IH]; [done|]. intros _. simpl.
  destruct l as [|m l].
  - simpl. rewrite N.max_0_r. left.
  - destruct (N.max_spec n (N_maximum (m :: l))) as [[_ ->]|[_ ->]].
    + right. by apply IH.
    + left.
  Qed.

Lemma foldl_accumulate (l : list StatsOverview.Stats) (rate : float) (streaks longest : N) :
  foldl StatsOverview.accumulate (rate, streaks, longest) l
  = (foldl PrimFloat.add rate (StatsOverview.completion_rate <$> l),
     (streaks + N_sum (StatsOverview.current_streak <$> l))%N,
     N.max longest (N_maximum (StatsOverview.longest_streak <$> l))).
Proof.
  revert rate streaks longest.
  induction l as [|s l IH]; intros rate streaks longest.
  - cbn [foldl fmap list_fmap N_sum N_maximum foldr].
    f_equal; [f_equal|]; lia.
  - cbn [foldl StatsOverview.accumulate]. rewrite IH.
    rewrite !fmap_cons. cbn [foldl]. unfold N_sum, N_maximum. cbn [foldr].
    f_equal; [f_equal|]; lia.
Qed.

Lemma elem_of_Object_values (habitStats : list (string * StatsOverview.Stats))
    (s : StatsOverview.Stats) :
  s ∈ StatsOverview.Object_values habitStats ↔ ∃ k, (k, s) ∈ habitStats.
Proof.
  unfold StatsOverview.Object_values. rewrite list_elem_of_fmap. split.
  - intros ([k s'] & -> & Hin). by exists k.
  - intros (k & Hk). by exists (k, s).
Qed.

(** C6. Over a non-empty collection of per-habit stats,
    [calculateOverallStats] returns the sum of the completion rates divided
    by their number, the sum of the current streaks, and the greatest of
    the longest streaks; over an empty collection it returns 0 three
    times.  The rates are doubles: their sum is the one JS computes, from 0
    and in the order of the object's properties, and the quotient is the
    double nearest to the exact one. *)
Theorem calculateOverallStats_spec (habitStats : list (string * StatsOverview.Stats)) :
  let stats := StatsOverview.Object_values habitStats in
  let overall := StatsOverview.calculateOverallStats habitStats in
  (habitStats = [] →
     overall = {| StatsOverview.averageCompletionRate := 0%float;
                  StatsOverview.totalStreaks := 0;
                  StatsOverview.longestStreak := 0 |})
  ∧ (habitStats ≠ [] →
       length stats = length habitStats
       ∧ StatsOverview.averageCompletionRate overall
         = PrimFloat.div (double_sum (StatsOverview.completion_rate <$> stats))
             (StatsOverview.number_of_length (length stats))
       ∧ StatsOverview.totalStreaks overall
         = N_sum (StatsOverview.current_streak <$> stats)
       ∧ (∃ k s, (k, s) ∈ habitStats
                 ∧ StatsOverview.longestStreak overall = StatsOverview.longest_streak s)
       ∧ (∀ k s, (k, s) ∈ habitStats →
                 (StatsOverview.longest_streak s
                  <= StatsOverview.longestStreak overall)%N)).
Proof.
  intros stats overall. subst overall. unfold StatsOverview.calculateOverallStats.
  assert (length (StatsOverview.Object_keys habitStats) = length habitStats
          ∧ length stats = length habitStats) as [Hkeys Hvals].
  { subst stats. unfold StatsOverview.Object_keys, StatsOverview.Object_values.
    by rewrite !length_fmap. }
  rewrite Hkeys. split.
  - intros ->. reflexivity.
  - intros Hne.
    assert (length habitStats ≠ 0%nat) as Hsize by (by destruct habitStats).
    apply Nat.eqb_neq in Hsize as Hsize'. rewrite Hsize'.
    fold stats. rewrite foldl_accumulate. simpl.
    split; [exact Hvals|]. split; [|split; [|split]].
    + unfold double_sum. by rewrite Hvals.
    + lia.
    + assert (N_maximum (StatsOverview.longest_streak <$> stats)
              ∈ StatsOverview.longest_streak <$> stats) as Hmax.
      { apply N_maximum_attained. destruct stats; [|done].
        simpl in Hvals. congruence. }
      apply list_elem_of_fmap in Hmax as (s & Hs & Hin).
      apply elem_of_Object_values in Hin as (k & Hk).
      exists k, s. split; [done|]. rewrite <- Hs. lia.
    + intros k s Hk. rewrite N.max_0_l. apply N_maximum_upper_bound.
      apply list_elem_of_fmap. exists s. split; [done|].
      apply elem_of_Object_values. by exists k.
Qed.

(** Rates 100, 0 and 0 average to the double 33.333333333333336, and the
    rates 0.1, 0.2 and 0.3 average to another double when they are listed
    the other way round. *)
Example calculateOverallStats_example :
  StatsOverview.calculateOverallStats
    [("h1", StatsOverview.mkStats 100 2 4);
     ("h2", StatsOverview.mkStats 0 5 7);
     ("h3", StatsOverview.mkStats 0 0 1)]
  = {| StatsOverview.averageCompletionRate := 0x1.0aaaaaaaaaaabp+5;
       StatsOverview.totalStreaks := 7;
       StatsOverview.longestStreak := 7 |}
  ∧ StatsOverview.calculateOverallStats []
    = {| StatsOverview.averageCompletionRate := 0;
         StatsOverview.totalStreaks := 0;
         StatsOverview.longestStreak := 0 |}
  ∧ StatsOverview.averageCompletionRate
      (StatsOverview.calculateOverallStats
         [("a", StatsOverview.mkStats 0x1.999999999999ap-4 0 0);
          ("b", StatsOverview.mkStats 0x1.999999999999ap-3 0 0);
          ("c", StatsOverview.mkStats 0x1.3333333333333p-2 0 0)])
    ≠ StatsOverview.averageCompletionRate
        (StatsOverview.calculateOverallStats
           [("c", StatsOverview.mkStats 0x1.3333333333333p-2 0 0);
            ("b", StatsOverview.mkStats 0x1.999999999999ap-3 0 0);
            ("a", StatsOverview.mkStats 0x1.999999999999ap-4 0 0)]).
Proof.
  split; [by vm_compute|]. split; [reflexivity|].
  vm_compute. intros E.
  apply (f_equal (PrimFloat.eqb 0x1.999999999999bp-3)) in E. vm_compute in E.
  discriminate.
Qed.


(** ** The custom-day toggle of the habit form *)

Lemma indexOf_range (arr : list Z) (x : Z) : -1 <= JS.indexOf arr x.
Proof.
  induction arr as [|y arr IH]; simpl; [lia|].
  case_bool_decide; [lia|]. destruct (Z.ltb_spec (JS.indexOf arr x) 0); lia.
Qed.

(** The toggle, read off the list from its head. *)
Lemma handleCustomDayToggle_nil (day : Z) : HabitForm.handleCustomDayToggle day [] = [day].
Proof. reflexivity. Qed.

Lemma handleCustomDayToggle_cons (day y : Z) (days : list Z) :
  HabitForm.handleCustomDayToggle day (y :: days)
  = if decide (y = day) then days else y :: HabitForm.handleCustomDayToggle day days.
Proof.
  unfold HabitForm.handleCustomDayToggle, JS.splice1. simpl.
  case_bool_decide; case_decide; try done.
  pose proof (indexOf_range days day).
  destruct (Z.ltb_spec (JS.indexOf days day) 0) as [Hlt|Hge].
  - assert (JS.indexOf days day = -1) as -> by lia. reflexivity.
  - assert ((-1 <? JS.indexOf days day + 1) = true) as -> by (apply Z.ltb_lt; lia).
    assert ((-1 <? JS.indexOf days day) = true) as -> by (apply Z.ltb_lt; lia).
    rewrite Z2Nat.inj_add by lia. rewrite Nat.add_comm. reflexivity.
Qed.

Lemma handleCustomDayToggle_absent (day : Z) (days : list Z) :
  day ∉ days → HabitForm.handleCustomDayToggle day days = days ++ [day].
Proof.
  induction days as [|y days IH]; intros Hnotin; [done|].
  rewrite handleCustomDayToggle_cons. apply not_elem_of_cons in Hnotin as [Hne Hnotin].
  case_decide; [congruence|]. simpl. by rewrite IH.
Qed.

(** The days other than the toggled one are untouched, whatever the list:
    same entries, same order, same multiplicity. *)
Lemma handleCustomDayToggle_others (day : Z) (days : list Z) :
  filter (λ d, d ≠ day) (HabitForm.handleCustomDayToggle day days)
  = filter (λ d, d ≠ day) days.
Proof.
  induction days as [|y days IH].
  - rewrite handleCustomDayToggle_nil, filter_cons. by case_decide.
  - rewrite handleCustomDayToggle_cons. case_decide as Hy.
    + subst y. rewrite (filter_cons _ day). by case_decide.
    + rewrite !filter_cons. case_decide; [|done]. by rewrite IH.
Qed.

Lemma handleCustomDayToggle_elem_of (day d : Z) (days : list Z) :
  d ∈ HabitForm.handleCustomDayToggle day days → d = day ∨ d ∈ days.
Proof.
  induction days as [|y days IH].
  - rewrite handleCustomDayToggle_nil. rewrite list_elem_of_singleton. auto.
  - rewrite handleCustomDayToggle_cons. case_decide.
    + intros Hd. right. by right.
    + rewrite !elem_of_cons. intros [->|Hd]; [auto|]. destruct (IH Hd); auto.
Qed.

Lemma handleCustomDayToggle_present (day : Z) (days : list Z) :
  NoDup days → day ∈ days → day ∉ HabitForm.handleCustomDayToggle day days.
Proof.
  induction 1 as [|y days Hy Hnd IH]; intros Hin; [by apply elem_of_nil in Hin|].
  rewrite handleCustomDayToggle_cons. case_decide as Hyd.
  - by subst y.
  - apply elem_of_cons in Hin as [->|Hin]; [done|].
    apply not_elem_of_cons. split; [congruence|]. by apply IH.
Qed.

Lemma handleCustomDayToggle_NoDup (day : Z) (days : list Z) :
  NoDup days → NoDup (HabitForm.handleCustomDayToggle day days).
Proof.
  induction 1 as [|y days Hy Hnd IH].
  - rewrite handleCustomDayToggle_nil. apply NoDup_singleton.
  - rewrite handleCustomDayToggle_cons. case_decide as Hyd; [done|].
    constructor; [|done].
    intros Hin. apply handleCustomDayToggle_elem_of in Hin as [->|Hin]; done.
Qed.

(** C10, for a list without repeated days. Toggling a day removes it when
    it is present and appends it when it is absent, leaves the other days
    as they were, keeps the list free of repetitions, and toggling twice
    gives back a list with the same members. *)
Theorem handleCustomDayToggle_spec (day : Z) (days : list Z) :
  NoDup days →
  (day ∈ days → day ∉ HabitForm.handleCustomDayToggle day days)
  ∧ (day ∉ days → HabitForm.handleCustomDayToggle day days = days ++ [day])
  ∧ filter (λ d, d ≠ day) (HabitForm.handleCustomDayToggle day days)
    = filter (λ d, d ≠ day) days
  ∧ (∀ d, d ≠ day → d ∈ HabitForm.handleCustomDayToggle day days ↔ d ∈ days)
  ∧ NoDup (HabitForm.handleCustomDayToggle day days)
  ∧ (∀ d, d ∈ HabitForm.handleCustomDayToggle day
                (HabitForm.handleCustomDayToggle day days) ↔ d ∈ days).
Proof.
  intros Hnd.
  assert (∀ l d, d ≠ day → d ∈ HabitForm.handleCustomDayToggle day l ↔ d ∈ l) as Hother.
  { intros l d Hd.
    assert (d ∈ filter (λ d, d ≠ day) (HabitForm.handleCustomDayToggle day l)
            ↔ d ∈ filter (λ d, d ≠ day) l) as Hf
      by (by rewrite handleCustomDayToggle_others).
    rewrite !list_elem_of_filter in Hf. tauto. }
  split; [by apply handleCustomDayToggle_present|].
  split; [apply handleCustomDayToggle_absent|].
  split; [apply handleCustomDayToggle_others|].
  split; [apply Hother|].
  split; [by apply handleCustomDayToggle_NoDup|].
  intros d. destruct (decide (d = day)) as [->|Hd].
  - destruct (decide (day ∈ days)) as [Hin|Hnotin].
    + rewrite handleCustomDayToggle_absent
        by (by apply handleCustomDayToggle_present).
      split; [done|]. intros _. apply elem_of_app. right. left.
    + split; [|done]. intros Hin2. exfalso.
      revert Hin2. apply handleCustomDayToggle_present.
      * by apply handleCustomDayToggle_NoDup.
      * rewrite handleCustomDayToggle_absent by done. apply elem_of_app. right. left.
  - by rewrite !Hother.
Qed.

Lemma handleCustomDayToggle_spec_witness :
  NoDup [1; 3]
  ∧ (3 ∈ [1; 3] → 3 ∉ HabitForm.handleCustomDayToggle 3 [1; 3])
  ∧ (3 ∉ [1; 3] → HabitForm.handleCustomDayToggle 3 [1; 3] = [1; 3] ++ [3])
  ∧ filter (λ d, d ≠ 3) (HabitForm.handleCustomDayToggle 3 [1; 3])
    = filter (λ d, d ≠ 3) [1; 3]
  ∧ (∀ d, d ≠ 3 → d ∈ HabitForm.handleCustomDayToggle 3 [1; 3] ↔ d ∈ [1; 3])
  ∧ NoDup (HabitForm.handleCustomDayToggle 3 [1; 3])
  ∧ (∀ d, d ∈ HabitForm.handleCustomDayToggle 3
                (HabitForm.handleCustomDayToggle 3 [1; 3]) ↔ d ∈ [1; 3]).
Proof.
  assert (NoDup [1; 3]) as Hnd
    by (apply (bool_decide_unpack (NoDup [1; 3])); vm_compute; exact I).
  split; [exact Hnd|]. exact (handleCustomDayToggle_spec 3 [1; 3] Hnd).
Defined.

(** On a list that repeats a day, the toggle drops the first occurrence
    only: the day stays present, and a second toggle empties the list. *)
Lemma handleCustomDayToggle_repeated_day :
  1 ∈ [1; 1]
  ∧ 1 ∈ HabitForm.handleCustomDayToggle 1 [1; 1]
  ∧ HabitForm.handleCustomDayToggle 1 (HabitForm.handleCustomDayToggle 1 [1; 1]) = []
  ∧ ¬ (∀ d, d ∈ HabitForm.handleCustomDayToggle 1
                  (HabitForm.handleCustomDayToggle 1 [1; 1]) ↔ d ∈ [1; 1]).
Proof.
  split; [left|]. split; [left|].
  split; [reflexivity|]. intros H. specialize (H 1).
  change (1 ∈ [] ↔ 1 ∈ [1; 1]) in H.
  apply (not_elem_of_nil 1), H. left.
Qed.

Example handleCustomDayToggle_examples :
  HabitForm.handleCustomDayToggle 2 [0; 2; 4] = [0; 4]
  ∧ HabitForm.handleCustomDayToggle 3 [0; 2; 4] = [0; 2; 4; 3]
  ∧ HabitForm.handleCustomDayToggle 0 [] = [0].
Proof. repeat split. Qed.

(** ** The notification check *)

Section Notifications.

Variable API : string.

Lemma armed_guard (c : Countdown) :
  JS.truthy_num (notify_before c) && negb (is_completed c) = true ↔ armed c.
Proof.
  unfold armed, JS.truthy_num. rewrite andb_true_iff, negb_true_iff.
  destruct (notify_before c) as [n|].
  - rewrite negb_true_iff, Z.eqb_neq. split.
    + intros [? ?]. eauto.
    + intros [(m & [= <-] & ?) ?]. done.
  - split; [by intros [? ?]|]. by intros [(m & ? & ?) _].
Qed.

Lemma in_window_test (start now : Date) :
  (start <=? now) && (now <=? DateFns.addMinutes start 1) = true ↔ in_window start now.
Proof.
  unfold in_window, DateFns.addMinutes, DateFns.millisecondsInMinute.
  rewrite andb_true_iff, !Z.leb_le. lia.
Qed.

Lemma sendNotification_Some (permission : Permission) (title body : string) :
  sendNotification (Some permission) title body
  = Some (if bool_decide (permission = granted)
          then [ShowNotification title body; sound] else []).
Proof. reflexivity. Qed.

Lemma elem_of_shown (permission : Permission) (shown e : Effect) :
  e ∈ (if bool_decide (permission = granted) then [shown; sound] else [])
  ↔ permission = granted ∧ (e = shown ∨ e = sound).
Proof.
  case_bool_decide.
  - rewrite !elem_of_cons, elem_of_nil. tauto.
  - rewrite elem_of_nil. tauto.
Qed.

(** Where the browser has no [Notification] an iteration issues nothing,
    and it throws exactly when the guard holds and a window is open. *)
Lemma checkCountdown_None (now : Date) (c : Countdown) :
  (CountdownsList.checkCountdown API None now c).1 = []
  ∧ ((CountdownsList.checkCountdown API None now c).2 = true
     ↔ armed c ∧ (in_window (notifyTime c) now ∨ in_window (target_date c) now)).
Proof.
  unfold CountdownsList.checkCountdown.
  pose proof (armed_guard c) as Hguard.
  destruct (JS.truthy_num (notify_before c) && negb (is_completed c)).
  2:{ simpl. split; [done|]. split; [done|]. intros [Ha _]. by apply Hguard in Ha. }
  assert (armed c) as Ha by (by apply Hguard).
  set (b1 := (DateFns.addMinutes (target_date c) (- default 0 (notify_before c))
              <=? now) && _).
  set (b2 := (target_date c <=? now) && _).
  assert (b1 = true ↔ in_window (notifyTime c) now) as Hn.
  { subst b1. rewrite in_window_test. unfold notifyTime, DateFns.addMinutes,
      DateFns.millisecondsInMinute.
    by replace (target_date c + - default 0 (notify_before c) * 60000)
      with (target_date c - default 0 (notify_before c) * 60000) by lia. }
  assert (b2 = true ↔ in_window (target_date c) now) as Ht
    by (subst b2; apply in_window_test).
  clearbody b1 b2. destruct b1, b2; simpl; (split; [done|]); intuition congruence.
Qed.

(** Where it has one, no iteration throws. *)
Lemma checkCountdown_Some (permission : Permission) (now : Date) (c : Countdown) :
  (CountdownsList.checkCountdown API (Some permission) now c).2 = false.
Proof.
  unfold CountdownsList.checkCountdown. rewrite !sendNotification_Some.
  repeat (destruct (_ && _)); reflexivity.
Qed.

(** What one iteration of the check issues. *)
Lemma elem_of_checkCountdown (notification : option Permission) (now : Date)
    (c : Countdown) (e : Effect) :
  e ∈ (CountdownsList.checkCountdown API notification now c).1
  ↔ armed c
    ∧ ((in_window (notifyTime c) now
        ∧ notification = Some granted ∧ (e = reminder c ∨ e = sound))
       ∨ (in_window (target_date c) now
          ∧ ((notification = Some granted ∧ (e = completion c ∨ e = sound))
             ∨ (notification ≠ None ∧ e = update API c)))).
Proof.
  destruct notification as [permission|].
  2:{ rewrite (proj1 (checkCountdown_None now c)), elem_of_nil.
      split; [done|]. intros [_ [(_ & ? & _)|(_ & [(? & _)|(? & _)])]]; done. }
  unfold CountdownsList.checkCountdown. rewrite !sendNotification_Some.
  pose proof (armed_guard c) as Hguard.
  destruct (JS.truthy_num (notify_before c) && negb (is_completed c)).
  2:{ simpl. rewrite elem_of_nil. split; [done|]. intros [Ha _].
      apply Hguard in Ha. discriminate. }
  assert (armed c) as Ha by (by apply Hguard).
  set (b1 := (DateFns.addMinutes (target_date c) (- default 0 (notify_before c))
              <=? now) && _).
  set (b2 := (target_date c <=? now) && _).
  assert (b1 = true ↔ in_window (notifyTime c) now) as Hn.
  { subst b1. rewrite in_window_test. unfold notifyTime, DateFns.addMinutes,
      DateFns.millisecondsInMinute.
    by replace (target_date c + - default 0 (notify_before c) * 60000)
      with (target_date c - default 0 (notify_before c) * 60000) by lia. }
  assert (b2 = true ↔ in_window (target_date c) now) as Ht
    by (subst b2; apply in_window_test).
  clearbody b1 b2.
  fold (reminder c) (completion c) (update API c).
  destruct b1, b2; simpl;
    rewrite ?elem_of_app, ?elem_of_shown, ?list_elem_of_singleton, ?elem_of_nil;
    intuition congruence.
Qed.

Lemma checkFrom_None (clock : nat → Date) (i : nat) (countdowns : list Countdown) :
  (CountdownsList.checkFrom API None clock i countdowns).1 = [].
Proof.
  revert i. induction countdowns as [|c l IH]; intros i; [done|].
  cbn [CountdownsList.checkFrom].
  pose proof (proj1 (checkCountdown_None (clock i) c)) as H1.
  destruct (CountdownsList.checkCountdown API None (clock i) c) as [issued threw].
  simpl in H1. subst issued. destruct threw; [done|].
  specialize (IH (S i)).
  destruct (CountdownsList.checkFrom API None clock (S i) l) as [issued' threw'].
  exact IH.
Qed.

Lemma checkFrom_Some (permission : Permission) (clock : nat → Date) (i : nat)
    (countdowns : list Countdown) :
  CountdownsList.checkFrom API (Some permission) clock i countdowns
  = (mjoin (imap (λ j c, (CountdownsList.checkCountdown API (Some permission)
                            (clock (i + j)%nat) c).1) countdowns),
     false).
Proof.
  revert i. induction countdowns as [|c l IH]; intros i; [done|].
  cbn [CountdownsList.checkFrom].
  pose proof (checkCountdown_Some permission (clock i) c) as H1.
  destruct (CountdownsList.checkCountdown API (Some permission) (clock i) c)
    as [issued threw] eqn:E.
  simpl in H1. subst threw. rewrite IH. simpl. rewrite Nat.add_0_r, E. simpl.
  do 3 f_equal. apply imap_ext. intros j x _. simpl. do 3 f_equal. lia.
Qed.

Lemma elem_of_checkNotifications (notification : option Permission) (clock : nat → Date)
    (countdowns : list Countdown) (e : Effect) :
  e ∈ (CountdownsList.checkNotifications API notification clock countdowns).1
  ↔ ∃ i c, countdowns !! i = Some c
           ∧ e ∈ (CountdownsList.checkCountdown API notification (clock i) c).1.
Proof.
  unfold CountdownsList.checkNotifications. destruct notification as [permission|].
  - rewrite checkFrom_Some. simpl. rewrite list_elem_of_join. split.
    + intros (l & He & Hl). apply elem_of_lookup_imap in Hl as (i & c & -> & Hc). eauto.
    + intros (i & c & Hc & He). eexists. split; [exact He|].
      apply elem_of_lookup_imap. eauto.
  - rewrite checkFrom_None, elem_of_nil. split; [done|].
    intros (i & c & _ & He). rewrite (proj1 (checkCountdown_None (clock i) c)) in He.
    by apply elem_of_nil in He.
Qed.

End Notifications.

Lemma notification_kinds_distinct (API : string) (c c' : Countdown) :
  reminder c ≠ completion c' ∧ reminder c ≠ sound ∧ completion c ≠ sound
  ∧ reminder c ≠ update API c' ∧ completion c ≠ update API c' ∧ sound ≠ update API c'.
Proof. repeat split; discriminate. Qed.

(** An iteration on a countdown whose guard fails issues nothing and
    does not throw. *)
Lemma checkCountdown_unarmed (API : string) (notification : option Permission)
    (now : Date) (c : Countdown) :
  JS.truthy_num (notify_before c) = false ∨ is_completed c = true →
  CountdownsList.checkCountdown API notification now c = ([], false).
Proof.
  unfold CountdownsList.checkCountdown. intros [->| ->]; [done|].
  by rewrite andb_false_r.
Qed.

(** C1, with the guard and the window of the check and the browser's
    [Notification]. For a countdown that is not completed and has a
    non-zero [notify_before], the iteration of the check on it issues the
    update that sets [is_completed] exactly when the browser has
    [Notification] and the clock reads a time from [target_date] to one
    minute later; every request of a check is such an update, and besides
    requests a check only shows notifications and plays their sound.
    Where the browser has no [Notification] the check issues nothing: the
    iteration throws in [sendNotification], before the update, whenever
    the guard holds and a window is open. *)
Theorem checkNotifications_marks_complete (API : string)
    (notification : option Permission) (clock : nat → Date)
    (countdowns : list Countdown) (i : nat) (c : Countdown) :
  countdowns !! i = Some c →
  is_completed c = false →
  JS.truthy_num (notify_before c) = true →
  (AxiosPut (API +:+ "/countdowns/" +:+ cd_id c) (with_is_completed c true)
     ∈ (CountdownsList.checkCountdown API notification (clock i) c).1
   ↔ notification ≠ None ∧ target_date c <= clock i <= target_date c + 60000)
  ∧ (notification ≠ None → target_date c <= clock i <= target_date c + 60000 →
     AxiosPut (API +:+ "/countdowns/" +:+ cd_id c) (with_is_completed c true)
       ∈ (CountdownsList.checkNotifications API notification clock countdowns).1)
  ∧ (∀ url payload,
       AxiosPut url payload
         ∈ (CountdownsList.checkNotifications API notification clock countdowns).1 →
       notification ≠ None
       ∧ ∃ j c', countdowns !! j = Some c'
               ∧ url = API +:+ "/countdowns/" +:+ cd_id c'
               ∧ payload = with_is_completed c' true
               ∧ armed c'
               ∧ target_date c' <= clock j <= target_date c' + 60000)
  ∧ (∀ e, e ∈ (CountdownsList.checkNotifications API notification clock countdowns).1 →
       (∃ title body, e = ShowNotification title body)
       ∨ e = PlayAudio "/notification.mp3"
       ∨ (∃ url payload, e = AxiosPut url payload ∧ is_completed payload = true))
  ∧ (notification = None →
     (CountdownsList.checkNotifications API notification clock countdowns).1 = []
     ∧ ((CountdownsList.checkCountdown API notification (clock i) c).2 = true
        ↔ in_window (notifyTime c) (clock i) ∨ in_window (target_date c) (clock i))).
Proof.
  intros Hi Hnc Hnb.
  assert (armed c) as Ha.
  { apply armed_guard. rewrite Hnb, Hnc. reflexivity. }
  assert (AxiosPut (API +:+ "/countdowns/" +:+ cd_id c) (with_is_completed c true)
            ∈ (CountdownsList.checkCountdown API notification (clock i) c).1
          ↔ notification ≠ None ∧ target_date c <= clock i <= target_date c + 60000)
    as Hiff.
  { fold (update API c). rewrite elem_of_checkCountdown. unfold in_window. split.
    - intros [_ [(_ & _ & [E|E])|(Hw & [(_ & [E|E])|(Hn & _)])]];
        try discriminate E. done.
    - intros [Hn Hw]. split; [exact Ha|]. right. split; [exact Hw|]. by right. }
  split; [exact Hiff|]. split; [|split; [|split]].
  - intros Hn Hw. apply elem_of_checkNotifications. exists i, c. split; [exact Hi|].
    by apply Hiff.
  - intros url payload Hin.
    apply elem_of_checkNotifications in Hin as (j & c' & Hj & Hin).
    apply elem_of_checkCountdown
      in Hin as [Ha' [(_ & _ & [E|E])|(Hw & [(_ & [E|E])|(Hn & E)])]];
      try discriminate E.
    injection E as -> ->. split; [exact Hn|]. exists j, c'. done.
  - intros e Hin.
    apply elem_of_checkNotifications in Hin as (j & c' & Hj & Hin).
    apply elem_of_checkCountdown
      in Hin as [Ha' [(_ & _ & [->| ->])|(Hw & [(_ & [->| ->])|(_ & ->)])]].
    + left. unfold reminder. eauto.
    + right. by left.
    + left. unfold completion. eauto.
    + right. by left.
    + right. right. unfold update. eauto.
  - intros ->. split.
    + apply checkFrom_None.
    + rewrite (proj2 (checkCountdown_None API (clock i) c)). tauto.
Qed.

Lemma checkNotifications_marks_complete_witness :
  let c := mkCountdown "c1" "Launch" "Lift-off" 0 (Some 5) false false in
  let clock := λ _ : nat, 30000 in
  [c] !! 0%nat = Some c
  ∧ is_completed c = false
  ∧ JS.truthy_num (notify_before c) = true
  ∧ Some granted ≠ None
  ∧ target_date c <= clock 0%nat <= target_date c + 60000
  ∧ AxiosPut ("/api" +:+ "/countdowns/" +:+ cd_id c) (with_is_completed c true)
      ∈ (CountdownsList.checkNotifications "/api" (Some granted) clock [c]).1.
Proof.
  intros c clock.
  repeat (split; [reflexivity|]).
  assert (Some granted ≠ @None Permission) as Hn by discriminate.
  assert (target_date c <= clock 0%nat <= target_date c + 60000) as Hw
    by (subst c clock; simpl; lia).
  split; [exact Hn|]. split; [exact Hw|].
  exact (proj1 (proj2
    (checkNotifications_marks_complete "/api" (Some granted) clock [c] 0%nat c
       eq_refl eq_refl eq_refl)) Hn Hw).
Defined.

(** More than a minute after [target_date] the check issues no update:
    the countdown stays not completed. *)
Lemma checkNotifications_window_missed :
  let c := mkCountdown "c1" "Launch" "Lift-off" 0 (Some 5) false false in
  is_completed c = false
  ∧ target_date c <= 60001
  ∧ CountdownsList.checkNotifications "/api" (Some granted) (λ _, 60001) [c] = ([], false).
Proof. repeat split. discriminate. Qed.

(** Nor does it for a countdown created with "No notification". *)
Lemma checkNotifications_no_notify_before :
  let c := mkCountdown "c2" "Launch" "Lift-off" 0 None false false in
  CountdownsList.checkNotifications "/api" (Some granted) (λ _, 0) [c] = ([], false).
Proof. reflexivity. Qed.

(** Nor where the browser has no [Notification]: inside the window the
    check throws before the update. *)
Lemma checkNotifications_no_Notification :
  let c := mkCountdown "c1" "Launch" "Lift-off" 0 (Some 5) false false in
  CountdownsList.checkNotifications "/api" None (λ _, 30000) [c] = ([], true).
Proof. reflexivity. Qed.

(** C2, with the permission test of [sendNotification]. In an iteration of
    the check the reminder of a countdown is shown exactly when the
    browser has [Notification] with permission granted, [notify_before]
    is set (non-zero), the countdown is not completed and the clock reads
    a time in the minute that starts [notify_before] minutes before
    [target_date]; the completion notification is shown exactly when
    permission is granted, [notify_before] is set, the countdown is not
    completed and the clock reads a time in the minute that starts at
    [target_date].  A check shows these notifications for the countdowns
    of the list and no other. *)
Theorem checkNotifications_windows (API : string) (notification : option Permission) :
  (∀ (now : Date) (c : Countdown),
     (ShowNotification ("Countdown Reminder: " +:+ cd_title c)
        ("Your countdown will complete in " +:+ pretty (default 0 (notify_before c))
           +:+ " minutes!")
        ∈ (CountdownsList.checkCountdown API notification now c).1
      ↔ notification = Some granted
        ∧ (∃ n, notify_before c = Some n ∧ n ≠ 0
                ∧ target_date c - n * 60000 <= now <= target_date c - n * 60000 + 60000)
        ∧ is_completed c = false)
     ∧ (ShowNotification ("Countdown Complete: " +:+ cd_title c)
          ("Your countdown " +:+ JS.dquote +:+ cd_title c +:+ JS.dquote
             +:+ " is now complete!")
          ∈ (CountdownsList.checkCountdown API notification now c).1
        ↔ notification = Some granted
          ∧ (∃ n, notify_before c = Some n ∧ n ≠ 0)
          ∧ is_completed c = false
          ∧ target_date c <= now <= target_date c + 60000))
  ∧ (∀ (clock : nat → Date) (countdowns : list Countdown) (title body : string),
       ShowNotification title body
         ∈ (CountdownsList.checkNotifications API notification clock countdowns).1
       ↔ ∃ i c, countdowns !! i = Some c
                ∧ ShowNotification title body
                    ∈ (CountdownsList.checkCountdown API notification (clock i) c).1
                ∧ notification = Some granted
                ∧ armed c
                ∧ ((ShowNotification title body = reminder c
                    ∧ in_window (notifyTime c) (clock i))
                   ∨ (ShowNotification title body = completion c
                      ∧ in_window (target_date c) (clock i)))).
Proof.
  split.
  - intros now c. split.
    + fold (reminder c). rewrite elem_of_checkCountdown.
      unfold armed, in_window, notifyTime. split.
      * intros [[(n & Hn & Hn0) Hc] [(Hw & Hp & _)|(_ & [(_ & [E|E])|(_ & E)])]];
          try discriminate E.
        rewrite Hn in Hw. simpl in Hw. eauto 10.
      * intros (Hp & (n & Hn & Hn0 & Hw) & Hc). split; [eauto|].
        left. rewrite Hn. simpl. auto.
    + fold (completion c). rewrite elem_of_checkCountdown.
      unfold armed, in_window. split.
      * intros [[Hn Hc] [(_ & _ & [E|E])|(Hw & [(Hp & _)|(_ & E)])]];
          try discriminate E.
        auto.
      * intros (Hp & Hn & Hc & Hw). split; [auto|]. right. auto.
  - intros clock countdowns title body. rewrite elem_of_checkNotifications.
    split.
    + intros (i & c & Hi & Hin). exists i, c. split; [exact Hi|]. split; [exact Hin|].
      apply elem_of_checkCountdown
        in Hin as [Ha [(Hw & Hp & [E|E])|(Hw & [(Hp & [E|E])|(_ & E)])]];
        try discriminate E; auto.
    + intros (i & c & Hi & Hin & _). eauto.
Qed.

(** Without permission nothing is shown, in the window or not. *)
Lemma checkNotifications_permission_denied :
  let c := mkCountdown "c1" "Launch" "Lift-off" 600000 (Some 5) false false in
  notify_before c = Some 5
  ∧ is_completed c = false
  ∧ target_date c - 5 * 60000 <= 300000 <= target_date c - 5 * 60000 + 60000
  ∧ CountdownsList.checkNotifications "/api" (Some denied) (λ _, 300000) [c] = ([], false)
  ∧ target_date c <= 600000 <= target_date c + 60000
  ∧ CountdownsList.checkNotifications "/api" (Some denied) (λ _, 600000) [c]
    = ([AxiosPut "/api/countdowns/c1" (with_is_completed c true)], false).
Proof. simpl. repeat split; try lia. Qed.

Example checkNotifications_examples :
  let c := mkCountdown "c1" "Launch" "Lift-off" 600000 (Some 5) false false in
  CountdownsList.checkNotifications "/api" (Some granted) (λ _, 330000) [c]
  = ([ShowNotification "Countdown Reminder: Launch"
        "Your countdown will complete in 5 minutes!";
      PlayAudio "/notification.mp3"], false)
  ∧ CountdownsList.checkNotifications "/api" (Some granted) (λ _, 630000) [c]
    = ([ShowNotification "Countdown Complete: Launch"
          ("Your countdown " +:+ JS.dquote +:+ "Launch" +:+ JS.dquote
             +:+ " is now complete!");
        PlayAudio "/notification.mp3";
        AxiosPut "/api/countdowns/c1" (with_is_completed c true)], false)
  ∧ CountdownsList.checkNotifications "/api" (Some granted) (λ _, 400000) [c] = ([], false)
  ∧ CountdownsList.checkNotifications "/api" None (λ _, 330000) [c] = ([], true).
Proof. vm_compute. repeat split. Qed.

(** * Further properties *)

(** ** What the countdown display shows *)

Lemma differenceInSeconds_nonpos (target now : Date) :
  DateFns.differenceInSeconds target now <= 0 ↔ target - now < 1000.
Proof.
  unfold DateFns.differenceInSeconds.
  destruct (Z_lt_le_dec (target - now) 0) as [Hneg|Hpos].
  - split; [lia|]. intros _.
    pose proof (Z.quot_opp_l (now - target) 1000 ltac:(lia)) as E.
    replace (- (now - target)) with (target - now) in E by lia.
    pose proof (Z.quot_pos (now - target) 1000 ltac:(lia) ltac:(lia)). lia.
  - rewrite Z.quot_div_nonneg by lia.
    pose proof (Z.div_mod (target - now) 1000 ltac:(lia)).
    pose proof (Z.mod_pos_bound (target - now) 1000 ltac:(lia)).
    pose proof (Z.div_pos (target - now) 1000 Hpos ltac:(lia)).
    lia.
Qed.

(** The shown fields add up to the whole seconds left, never less than 0. *)
Lemma timeRemaining_total (now target : Date) :
  let r := calculateTimeRemaining now target in
  days r * 86400 + hours r * 3600 + minutes r * 60 + seconds r
  = Z.max 0 (DateFns.differenceInSeconds target now).
Proof.
  unfold calculateTimeRemaining.
  set (d := DateFns.differenceInSeconds target now).
  destruct (Z.leb_spec d 0) as [Hd|Hd]; simpl; [lia|].
  unfold JS.floor_div. rewrite !rem_mod_nonneg by lia.
  change (24 * 60 * 60) with 86400. change (60 * 60) with 3600.
  pose proof (Z.div_mod d 86400). pose proof (Z.div_mod (d mod 86400) 3600).
  pose proof (Z.div_mod d 3600). pose proof (Z.div_mod (d mod 3600) 60).
  pose proof (Z.div_mod d 60).
  assert (d mod 3600 = (d mod 86400) mod 3600) as E1.
  { symmetry. apply Z.mod_mod_divide. exists 24. reflexivity. }
  assert (d mod 60 = (d mod 3600) mod 60) as E2.
  { symmetry. apply Z.mod_mod_divide. exists 60. reflexivity. }
  lia.
Qed.

(** X1. The display reports a countdown as complete exactly when less than
    one second is left before its target, so also during the last second
    before the target; once complete it stays complete as time goes on,
    and a card is expired exactly when less than a second is left or the
    countdown is marked completed. *)
Theorem isComplete_last_second (now target : Date) :
  (isComplete (calculateTimeRemaining now target) = true ↔ target - now < 1000)
  ∧ (∀ later, now <= later →
       isComplete (calculateTimeRemaining now target) = true →
       isComplete (calculateTimeRemaining later target) = true)
  ∧ (∀ countdown,
       CountdownCard.isExpired now countdown = true
       ↔ target_date countdown - now < 1000 ∨ is_completed countdown = true).
Proof.
  assert (∀ n t, isComplete (calculateTimeRemaining n t) = true ↔ t - n < 1000) as H.
  { intros n t. rewrite <- differenceInSeconds_nonpos. unfold calculateTimeRemaining.
    destruct (Z.leb_spec (DateFns.differenceInSeconds t n) 0); simpl; split;
      (lia || done). }
  split; [apply H|]. split.
  - intros later Hl. rewrite !H. lia.
  - intros c. unfold CountdownCard.isExpired. rewrite orb_true_iff, H. tauto.
Qed.

(** ** The countdown form *)

Lemma timer_seconds (now h m : Z) :
  DateFns.differenceInSeconds (CountdownForm.calculateTimerDate now h m) now
  = h * 3600 + m * 60.
Proof.
  unfold DateFns.differenceInSeconds, CountdownForm.calculateTimerDate.
  replace (now + h * 60 * 60 * 1000 + m * 60 * 1000 - now)
    with ((h * 3600 + m * 60) * 1000) by lia.
  apply Z.quot_mul. lia.
Qed.

(** X2. A timer of [h] hours and [m] minutes (m below 60) whose target
    is a valid date, shown at the instant it is submitted, reads [h / 24]
    days, [h mod 24] hours, [m] minutes and 0 seconds; a timer of no
    duration is complete at once.  (A longer timer makes [new Date] invalid
    and is outside the statement.) *)
Theorem timer_round_trip (now h m : Z) (formData : CountdownForm.FormData) :
  valid_time now → valid_time (CountdownForm.calculateTimerDate now h m) →
  0 <= h → 0 <= m < 60 → CountdownForm.fd_is_timer formData = true →
  let payload := CountdownForm.submitPayload now h m formData in
  calculateTimeRemaining now (CountdownForm.fd_target_date payload)
  = if (h =? 0) && (m =? 0)
    then {| days := 0; hours := 0; minutes := 0; seconds := 0; isComplete := true |}
    else {| days := h / 24; hours := h mod 24; minutes := m; seconds := 0;
            isComplete := false |}.
Proof.
  intros _ _ Hh Hm Ht. unfold CountdownForm.submitPayload. rewrite Ht. simpl.
  unfold calculateTimeRemaining. rewrite timer_seconds.
  destruct ((h =? 0) && (m =? 0)) eqn:Hzero.
  - apply andb_true_iff in Hzero as [->%Z.eqb_eq ->%Z.eqb_eq]. reflexivity.
  - assert (h ≠ 0 ∨ m ≠ 0) as Hnz.
    { apply andb_false_iff in Hzero as [?%Z.eqb_neq|?%Z.eqb_neq]; auto. }
    assert ((h * 3600 + m * 60 <=? 0) = false) as -> by (apply Z.leb_gt; lia).
    unfold JS.floor_div. rewrite !rem_mod_nonneg by lia.
    change (24 * 60 * 60) with 86400. change (60 * 60) with 3600.
    pose proof (Z.div_mod h 24 ltac:(lia)) as Hdm.
    pose proof (Z.mod_pos_bound h 24 ltac:(lia)) as Hb.
    assert ((h * 3600 + m * 60) / 86400 = h / 24) as ->.
    { symmetry. apply (Z.div_unique _ _ _ ((h mod 24) * 3600 + m * 60)); lia. }
    assert ((h * 3600 + m * 60) mod 86400 = (h mod 24) * 3600 + m * 60) as ->.
    { symmetry. apply (Z.mod_unique _ _ (h / 24)); lia. }
    assert (((h mod 24) * 3600 + m * 60) / 3600 = h mod 24) as ->.
    { symmetry. apply (Z.div_unique _ _ _ (m * 60)); lia. }
    assert ((h * 3600 + m * 60) mod 3600 = m * 60) as ->.
    { symmetry. apply (Z.mod_unique _ _ h); lia. }
    assert ((h * 3600 + m * 60) mod 60 = 0) as ->.
    { symmetry. apply (Z.mod_unique _ _ (h * 60 + m)); lia. }
    rewrite Z.div_mul by lia. reflexivity.
Qed.

Lemma timer_round_trip_witness :
  valid_time 7000 ∧ valid_time (CountdownForm.calculateTimerDate 7000 49 30)
  ∧ 0 <= 49 ∧ 0 <= 30 < 60
  ∧ CountdownForm.fd_is_timer
      (CountdownForm.handleSwitchChange (CountdownForm.initialFormData 5000)) = true
  ∧ calculateTimeRemaining 7000
      (CountdownForm.fd_target_date
         (CountdownForm.submitPayload 7000 49 30
            (CountdownForm.handleSwitchChange (CountdownForm.initialFormData 5000))))
    = {| days := 2; hours := 1; minutes := 30; seconds := 0; isComplete := false |}.
Proof.
  assert (0 <= 49) as H1 by lia. assert (0 <= 30 < 60) as H2 by lia.
  assert (valid_time 7000) as V1 by (unfold valid_time; lia).
  assert (valid_time (CountdownForm.calculateTimerDate 7000 49 30)) as V2
    by (unfold valid_time, CountdownForm.calculateTimerDate; lia).
  split; [exact V1|]. split; [exact V2|].
  split; [exact H1|]. split; [exact H2|]. split; [reflexivity|].
  exact (timer_round_trip 7000 49 30
           (CountdownForm.handleSwitchChange (CountdownForm.initialFormData 5000))
           V1 V2 H1 H2 eq_refl).
Defined.

(** X3. The edit form always loads a non-zero number into [notify_before]:
    the stored minutes when they are set, and 30 for a countdown stored
    with no notification or with 0; the other fields are loaded as
    stored. *)
Theorem loadFormData_notify_before (countdown : Countdown) :
  (∃ n, CountdownForm.fd_notify_before (CountdownForm.loadFormData countdown)
        = CountdownForm.NumberValue n
        ∧ n ≠ 0
        ∧ (notify_before countdown = Some n
           ∨ (n = 30 ∧ (notify_before countdown = None
                        ∨ notify_before countdown = Some 0))))
  ∧ CountdownForm.fd_title (CountdownForm.loadFormData countdown) = cd_title countdown
  ∧ CountdownForm.fd_description (CountdownForm.loadFormData countdown)
    = cd_description countdown
  ∧ CountdownForm.fd_target_date (CountdownForm.loadFormData countdown)
    = target_date countdown
  ∧ CountdownForm.fd_is_timer (CountdownForm.loadFormData countdown) = is_timer countdown.
Proof.
  split; [|done]. simpl. destruct (notify_before countdown) as [n|]; simpl.
  - destruct (Z.eqb_spec n 0) as [->|Hn]; simpl.
    + exists 30. split; [done|]. split; [done|]. right. auto.
    + exists n. auto.
  - exists 30. split; [done|]. split; [done|]. right. auto.
Qed.

(** X4. Saving the edit form of a stored timer countdown without entering
    a duration again sends the instant of the submission as its target:
    the timer fields start at 0 and are not loaded, so the countdown is
    complete at once, whatever its stored target was. *)
Theorem edit_timer_resets_target (API countdownId : string) (now : Date)
    (countdown : Countdown) (saved : Settled) :
  is_timer countdown = true →
  let payload :=
    CountdownForm.submitPayload now CountdownForm.initialTimerHours
      CountdownForm.initialTimerMinutes (CountdownForm.loadFormData countdown) in
  CountdownForm.fd_target_date payload = now
  ∧ isComplete (calculateTimeRemaining now (CountdownForm.fd_target_date payload)) = true
  ∧ CountdownForm.Put (API +:+ "/countdowns/" +:+ countdownId) payload
      ∈ CountdownForm.handleSubmit API true countdownId now
          CountdownForm.initialTimerHours CountdownForm.initialTimerMinutes
          (CountdownForm.loadFormData countdown) saved.
Proof.
  intros Ht payload.
  assert (CountdownForm.fd_target_date payload = now) as Hp.
  { subst payload. unfold CountdownForm.submitPayload.
    change (CountdownForm.fd_is_timer (CountdownForm.loadFormData countdown))
      with (is_timer countdown).
    rewrite Ht. cbn [CountdownForm.fd_target_date].
    unfold CountdownForm.calculateTimerDate, CountdownForm.initialTimerHours,
      CountdownForm.initialTimerMinutes. lia. }
  split; [exact Hp|]. split.
  - rewrite Hp. unfold calculateTimeRemaining, DateFns.differenceInSeconds.
    replace (now - now) with 0 by lia. reflexivity.
  - unfold CountdownForm.handleSubmit. fold payload. destruct saved; left.
Qed.

Lemma edit_timer_resets_target_witness :
  let countdown := mkCountdown "c1" "Egg" "Soft" 900000 (Some 5) true false in
  is_timer countdown = true
  ∧ CountdownForm.fd_target_date
      (CountdownForm.submitPayload 1000 CountdownForm.initialTimerHours
         CountdownForm.initialTimerMinutes (CountdownForm.loadFormData countdown))
    = 1000.
Proof.
  intros countdown. split; [reflexivity|].
  exact (proj1 (edit_timer_resets_target "/api" "c1" 1000 countdown Resolved eq_refl)).
Defined.

(** ** The notification check and the display *)

(** X5. The check announces completion and issues the update only at a
    time at which the card of the countdown already shows it as expired,
    with every field of the display at 0. *)
Theorem completion_only_when_expired (API : string) (notification : option Permission)
    (now : Date) (c : Countdown) (e : Effect) :
  e ∈ (CountdownsList.checkCountdown API notification now c).1 →
  e = update API c ∨ e = completion c →
  CountdownCard.isExpired now c = true
  ∧ calculateTimeRemaining now (target_date c)
    = {| days := 0; hours := 0; minutes := 0; seconds := 0; isComplete := true |}.
Proof.
  intros Hin He. apply elem_of_checkCountdown in Hin as [_ Hin].
  assert (in_window (target_date c) now) as [Hw _].
  { destruct Hin as [(_ & _ & [E|E])|(Hw & _)]; [| |exact Hw];
      destruct He as [->| ->]; discriminate E. }
  assert (DateFns.differenceInSeconds (target_date c) now <= 0) as Hd
    by (apply differenceInSeconds_nonpos; lia).
  unfold CountdownCard.isExpired, calculateTimeRemaining.
  apply Z.leb_le in Hd. rewrite Hd. done.
Qed.

Lemma completion_only_when_expired_witness :
  let c := mkCountdown "c1" "Launch" "Lift-off" 0 (Some 5) false false in
  update "/api" c ∈ (CountdownsList.checkCountdown "/api" (Some granted) 30000 c).1
  ∧ (update "/api" c = update "/api" c ∨ update "/api" c = completion c)
  ∧ CountdownCard.isExpired 30000 c = true
  ∧ calculateTimeRemaining 30000 (target_date c)
    = {| days := 0; hours := 0; minutes := 0; seconds := 0; isComplete := true |}.
Proof.
  intros c.
  assert (update "/api" c ∈ (CountdownsList.checkCountdown "/api" (Some granted) 30000 c).1) as Hin
    by (right; right; left).
  split; [exact Hin|]. split; [by left|].
  exact (completion_only_when_expired "/api" (Some granted) 30000 c (update "/api" c)
           Hin (or_introl eq_refl)).
Defined.

(** X6. A reminder for [n >= 1] minutes is shown when the display reads
    between [n - 1] and [n] minutes: the shown fields add up to a number of
    seconds from [(n - 1) * 60] to [n * 60]. *)
Theorem reminder_within_a_minute (API : string) (notification : option Permission)
    (now : Date) (c : Countdown) (n : Z) :
  notify_before c = Some n → 1 <= n →
  reminder c ∈ (CountdownsList.checkCountdown API notification now c).1 →
  let r := calculateTimeRemaining now (target_date c) in
  (n - 1) * 60 <= days r * 86400 + hours r * 3600 + minutes r * 60 + seconds r <= n * 60.
Proof.
  intros Hn Hn1 Hin r. subst r. rewrite timeRemaining_total.
  apply elem_of_checkCountdown in Hin as [_ [(Hw & _)|(_ & [(_ & [E|E])|(_ & E)])]];
    try discriminate E.
  unfold in_window, notifyTime in Hw. rewrite Hn in Hw. simpl in Hw.
  unfold DateFns.differenceInSeconds.
  rewrite Z.quot_div_nonneg by lia.
  assert ((n - 1) * 60 <= (target_date c - now) / 1000) by (apply Z.div_le_lower_bound; lia).
  assert ((target_date c - now) / 1000 <= n * 60).
  { apply Z.div_le_upper_bound; lia. }
  lia.
Qed.

Lemma reminder_within_a_minute_witness :
  let c := mkCountdown "c1" "Launch" "Lift-off" 600000 (Some 5) false false in
  notify_before c = Some 5 ∧ 1 <= 5
  ∧ reminder c ∈ (CountdownsList.checkCountdown "/api" (Some granted) 330000 c).1
  ∧ (5 - 1) * 60
    <= days (calculateTimeRemaining 330000 (target_date c)) * 86400
       + hours (calculateTimeRemaining 330000 (target_date c)) * 3600
       + minutes (calculateTimeRemaining 330000 (target_date c)) * 60
       + seconds (calculateTimeRemaining 330000 (target_date c))
    <= 5 * 60.
Proof.
  intros c.
  assert (1 <= 5) as H1 by lia.
  assert (reminder c ∈ (CountdownsList.checkCountdown "/api" (Some granted) 330000 c).1) as Hin
    by left.
  split; [reflexivity|]. split; [exact H1|]. split; [exact Hin|].
  exact (reminder_within_a_minute "/api" (Some granted) 330000 c 5 eq_refl H1 Hin).
Defined.

(** X7. For a reminder of two minutes or more the two windows are apart:
    no iteration of the check shows both the reminder and the completion
    notification of a countdown, and none issues the update together with
    the reminder. *)
Theorem reminder_and_completion_apart (API : string) (notification : option Permission)
    (now : Date) (c : Countdown) (n : Z) :
  notify_before c = Some n → 2 <= n →
  reminder c ∈ (CountdownsList.checkCountdown API notification now c).1 →
  (completion c ∉ (CountdownsList.checkCountdown API notification now c).1)
  ∧ (update API c ∉ (CountdownsList.checkCountdown API notification now c).1).
Proof.
  intros Hn Hn2 Hin.
  apply elem_of_checkCountdown in Hin as [_ [(Hw & _)|(_ & [(_ & [E|E])|(_ & E)])]];
    try discriminate E.
  unfold in_window, notifyTime in Hw. rewrite Hn in Hw. simpl in Hw.
  split; intros Hin2;
    apply elem_of_checkCountdown in Hin2 as [_ [(_ & _ & [E|E])|(Hw2 & _)]];
    try discriminate E; unfold in_window in Hw2; lia.
Qed.

Lemma reminder_and_completion_apart_witness :
  let c := mkCountdown "c1" "Launch" "Lift-off" 600000 (Some 5) false false in
  notify_before c = Some 5 ∧ 2 <= 5
  ∧ reminder c ∈ (CountdownsList.checkCountdown "/api" (Some granted) 330000 c).1
  ∧ (completion c ∉ (CountdownsList.checkCountdown "/api" (Some granted) 330000 c).1)
  ∧ (update "/api" c ∉ (CountdownsList.checkCountdown "/api" (Some granted) 330000 c).1).
Proof.
  intros c.
  assert (2 <= 5) as H2 by lia.
  assert (reminder c ∈ (CountdownsList.checkCountdown "/api" (Some granted) 330000 c).1) as Hin
    by left.
  split; [reflexivity|]. split; [exact H2|]. split; [exact Hin|].
  exact (reminder_and_completion_apart "/api" (Some granted) 330000 c 5 eq_refl H2 Hin).
Defined.

(** ** Notification permission *)

(** X8. [requestNotificationPermission] returns true exactly when the
    browser supports notifications and the permission after the call is
    granted; it prompts exactly when notifications are supported and the
    permission is neither granted nor denied, alerts exactly when they are
    not supported, and never changes a permission without prompting.
    After a call that returned true [sendNotification] shows the
    notification and plays the sound; after one that returned false in a
    supporting browser it does nothing, and in a browser without
    notifications it throws. *)
Theorem requestNotificationPermission_spec (supported : bool)
    (permission answer : Permission) :
  let '(result, after, interactions) :=
    Notifications.requestNotificationPermission supported permission answer in
  (result = true ↔ supported = true ∧ after = granted)
  ∧ (Notifications.RequestPermission ∈ interactions
     ↔ supported = true ∧ permission = default_permission)
  ∧ ((∃ message, Notifications.AlertUnsupported message ∈ interactions)
     ↔ supported = false)
  ∧ (Notifications.RequestPermission ∉ interactions → after = permission)
  ∧ (∀ title body,
       (result = true →
        sendNotification (Some after) title body
        = Some [ShowNotification title body; PlayAudio "/notification.mp3"])
       ∧ (result = false → supported = true →
          sendNotification (Some after) title body = Some [])
       ∧ (supported = false → sendNotification None title body = None)).
Proof.
  destruct supported, permission, answer; simpl;
    (split; [split; [intros ?; (done || auto) | intros [? ?]; done]|]);
    (split; [rewrite ?elem_of_nil, ?list_elem_of_singleton; split;
               [intros ?; (done || auto) | intros [? ?]; done]|]);
    (split; [split; [intros [m Hm]; rewrite ?elem_of_nil, ?list_elem_of_singleton in Hm;
                      done
                    | intros ?; try done; eexists; left]|]);
    (split; [rewrite ?elem_of_nil, ?list_elem_of_singleton; intros H; try done;
             exfalso; by apply H|]);
    intros title body; (split; [intros ?; done|]); split; intros; done.
Qed.

(** ** The day boxes of the habit form *)

Lemma handleCustomDayToggle_flips (day d : Z) (days : list Z) :
  NoDup days →
  d ∈ HabitForm.handleCustomDayToggle day days ↔ (if decide (d = day) then d ∉ days else d ∈ days).
Proof.
  intros Hnd. case_decide as Hd.
  - subst d. split.
    + intros Hin Hin'. by apply (handleCustomDayToggle_present day days).
    + intros Hnotin. rewrite handleCustomDayToggle_absent by done.
      apply elem_of_app. right. left.
  - assert (d ∈ filter (λ x, x ≠ day) (HabitForm.handleCustomDayToggle day days)
            ↔ d ∈ filter (λ x, x ≠ day) days) as Hf
      by (by rewrite handleCustomDayToggle_others).
    rewrite !list_elem_of_filter in Hf. tauto.
Qed.

Lemma toggleDays_NoDup (clicks days : list Z) : NoDup days → NoDup (toggleDays clicks days).
Proof.
  revert days. induction clicks as [|day clicks IH]; intros days Hnd; [done|].
  apply IH. by apply handleCustomDayToggle_NoDup.
Qed.

Lemma toggleDays_includes (clicks days : list Z) (d : Z) :
  NoDup days →
  JS.includes (toggleDays clicks days) d
  = xorb (JS.includes days d) (Nat.odd (length (filter (λ day, day = d) clicks))).
Proof.
  revert days. induction clicks as [|day clicks IH]; intros days Hnd.
  - simpl. by rewrite xorb_false_r.
  - change (toggleDays (day :: clicks) days)
      with (toggleDays clicks (HabitForm.handleCustomDayToggle day days)).
    rewrite IH by (by apply handleCustomDayToggle_NoDup).
    pose proof (handleCustomDayToggle_flips day d days Hnd) as Hflip.
    unfold JS.includes. rewrite filter_cons.
    destruct (decide (day = d)) as [->|Hne].
    + rewrite decide_True in Hflip by done.
      cbn [length]. rewrite Nat.odd_succ, <- Nat.negb_odd.
      repeat case_bool_decide; try tauto;
        by destruct (Nat.odd (length (filter (λ day, day = d) clicks))).
    + rewrite decide_False in Hflip by congruence.
      repeat case_bool_decide; try tauto; done.
Qed.

(** X9. Starting from a list without repeated days, any run of clicks on
    the day boxes leaves a list without repeated days, and the box of a
    day ends up changed exactly when it was clicked an odd number of
    times; a new habit, which starts with no day, ends up with exactly the
    days clicked an odd number of times. *)
Theorem toggleDays_parity (clicks days : list Z) (d : Z) :
  NoDup days →
  NoDup (toggleDays clicks days)
  ∧ (JS.includes (toggleDays clicks days) d = JS.includes days d
     ↔ Nat.Even (length (filter (λ day, day = d) clicks)))
  ∧ (JS.includes (toggleDays clicks []) d = true
     ↔ Nat.Odd (length (filter (λ day, day = d) clicks))).
Proof.
  intros Hnd. split; [by apply toggleDays_NoDup|].
  rewrite !toggleDays_includes by (done || constructor).
  rewrite <- Nat.even_spec, <- Nat.odd_spec, <- Nat.negb_odd.
  split.
  - destruct (JS.includes days d), (Nat.odd _); simpl; split; done.
  - unfold JS.includes. rewrite bool_decide_eq_false_2 by apply not_elem_of_nil.
    by rewrite xorb_false_l.
Qed.

Lemma toggleDays_parity_witness :
  NoDup [1; 3]
  ∧ NoDup (toggleDays [3; 5; 3; 3] [1; 3])
  ∧ (JS.includes (toggleDays [3; 5; 3; 3] [1; 3]) 3 = JS.includes [1; 3] 3
     ↔ Nat.Even (length (filter (λ day, day = 3) [3; 5; 3; 3])))
  ∧ (JS.includes (toggleDays [3; 5; 3; 3] []) 3 = true
     ↔ Nat.Odd (length (filter (λ day, day = 3) [3; 5; 3; 3]))).
Proof.
  assert (NoDup [1; 3]) as Hnd
    by (apply (bool_decide_unpack (NoDup [1; 3])); vm_compute; exact I).
  split; [exact Hnd|]. exact (toggleDays_parity [3; 5; 3; 3] [1; 3] 3 Hnd).
Defined.

(** X10. The payload of the habit form carries [custom_days] exactly when
    the frequency is custom.  A habit that carries the frequency and the
    days of the payload is selected by the home view on exactly the days
    ticked in the form when its frequency is custom, every day when it is
    daily and on day 1 when it is weekly, whatever was ticked before. *)
Theorem payload_schedule (API habitId : string) (isEditMode : bool)
    (formData : HabitFormSubmit.FormData) (saved : Settled) (habit : Habit)
    (dayOfWeek : Z) :
  frequency habit = HabitFormSubmit.p_frequency (HabitFormSubmit.submitPayload formData) →
  custom_days habit = HabitFormSubmit.p_custom_days (HabitFormSubmit.submitPayload formData) →
  (custom_days habit = None ↔ HabitFormSubmit.fd_frequency formData ≠ "custom")
  ∧ (HabitFormSubmit.fd_frequency formData = "custom" →
     Home.scheduledToday dayOfWeek habit = HabitFormSubmit.dayChecked formData dayOfWeek)
  ∧ (HabitFormSubmit.fd_frequency formData = "daily" →
     Home.scheduledToday dayOfWeek habit = true)
  ∧ (HabitFormSubmit.fd_frequency formData = "weekly" →
     Home.scheduledToday dayOfWeek habit = (dayOfWeek =? 1))
  ∧ (∃ url, (if isEditMode
             then HabitFormSubmit.Put url (HabitFormSubmit.submitPayload formData)
             else HabitFormSubmit.Post url (HabitFormSubmit.submitPayload formData))
            ∈ HabitFormSubmit.handleSubmit API isEditMode habitId formData saved).
Proof.
  intros Hf Hc. simpl in Hf, Hc. unfold Home.scheduledToday, HabitFormSubmit.dayChecked.
  rewrite Hf, Hc. split; [|split; [|split; [|split]]].
  - case_bool_decide; split; done.
  - intros E. rewrite E. simpl.
    by destruct (JS.includes (HabitFormSubmit.fd_custom_days formData) dayOfWeek).
  - intros E. rewrite E. reflexivity.
  - intros E. rewrite E. simpl. by destruct (dayOfWeek =? 1).
  - unfold HabitFormSubmit.handleSubmit. destruct isEditMode, saved; eexists; left.
Qed.

Lemma payload_schedule_witness :
  let formData :=
    HabitFormSubmit.toggleDay 4
      (HabitFormSubmit.toggleDay 2
         (HabitFormSubmit.mkFormData "Swim" "Pool" "custom" [] "cat1")) in
  let habit := mkHabit "h1" "Swim" "Pool" "custom" (Some [2; 4]) (Some "cat1") in
  frequency habit = HabitFormSubmit.p_frequency (HabitFormSubmit.submitPayload formData)
  ∧ custom_days habit
    = HabitFormSubmit.p_custom_days (HabitFormSubmit.submitPayload formData)
  ∧ (HabitFormSubmit.fd_frequency formData = "custom" →
     Home.scheduledToday 4 habit = HabitFormSubmit.dayChecked formData 4).
Proof.
  intros formData habit. split; [reflexivity|]. split; [reflexivity|].
  exact (proj1 (proj2 (payload_schedule "/api" "h1" true formData Resolved habit 4
                         eq_refl eq_refl))).
Defined.

(** ** Groups and categories on the habits page *)

Lemma groupStep_None (acc : gmap string (list Habit)) (habit : Habit) :
  HabitsListView.groupStep acc habit = None
  ↔ acc !! HabitsListView.groupKey habit = None
    ∧ JSObject.inherits (HabitsListView.groupKey habit) = true.
Proof.
  unfold HabitsListView.groupStep, JSObject.get.
  destruct (acc !! HabitsListView.groupKey habit) as [g|].
  - split; [done|]. by intros [? _].
  - destruct (JSObject.inherits _); split; try done. by intros [_ ?].
Qed.

Lemma groupStep_lookup (acc groups : gmap string (list Habit)) (habit : Habit) (k : string) :
  HabitsListView.groupStep acc habit = Some groups →
  groups !! k
  = if decide (HabitsListView.groupKey habit = k)
    then Some (default [] (acc !! k) ++ [habit])
    else acc !! k.
Proof.
  unfold HabitsListView.groupStep, JSObject.get. intros Hstep. case_decide as Hk.
  - subst k. destruct (acc !! HabitsListView.groupKey habit) as [g|] eqn:E; simpl.
    + injection Hstep as <-. by rewrite lookup_alter_eq, E.
    + destruct (JSObject.inherits _); [done|]. injection Hstep as <-.
      by rewrite lookup_alter_eq, lookup_insert_eq.
  - destruct (acc !! HabitsListView.groupKey habit) as [g|] eqn:E.
    + injection Hstep as <-. by rewrite lookup_alter_ne.
    + destruct (JSObject.inherits _); [done|]. injection Hstep as <-.
      rewrite lookup_alter_ne by done. by rewrite lookup_insert_ne.
Qed.

Lemma habitsByCategory_snoc (habits : list Habit) (habit : Habit) :
  HabitsListView.habitsByCategory (habits ++ [habit])
  = HabitsListView.habitsByCategory habits
      ≫= λ groups, HabitsListView.groupStep groups habit.
Proof.
  unfold HabitsListView.habitsByCategory. by rewrite foldl_app.
Qed.

Lemma habitsByCategory_lookup (habits : list Habit) :
  match HabitsListView.habitsByCategory habits with
  | None =>
      ∃ habit, habit ∈ habits
               ∧ JSObject.inherits (HabitsListView.groupKey habit) = true
  | Some groups =>
      (∀ habit, habit ∈ habits →
                JSObject.inherits (HabitsListView.groupKey habit) = false)
      ∧ ∀ k, groups !! k
             = match filter (λ h, HabitsListView.groupKey h = k) habits with
               | [] => None
               | group => Some group
               end
  end.
Proof.
  induction habits as [|habit habits IH] using rev_ind.
  { split; [by intros habit ?%elem_of_nil|done]. }
  rewrite habitsByCategory_snoc.
  destruct (HabitsListView.habitsByCategory habits) as [acc|]; simpl.
  - destruct IH as [Hkeys Hacc].
    destruct (HabitsListView.groupStep acc habit) as [groups|] eqn:Hstep.
    + split.
      * intros h [Hin|Hin]%elem_of_app; [by apply Hkeys|].
        apply list_elem_of_singleton in Hin. subst h.
        destruct (JSObject.inherits _) eqn:Hinh; [|done].
        unfold HabitsListView.groupStep, JSObject.get in Hstep. rewrite Hinh in Hstep.
        destruct (acc !! HabitsListView.groupKey habit) as [g|] eqn:E; [|done].
        rewrite Hacc in E.
        destruct (filter _ habits) as [|h' g'] eqn:Hf; [done|].
        assert (h' ∈ filter (λ x, HabitsListView.groupKey x
                                  = HabitsListView.groupKey habit) habits) as Hh'
          by (rewrite Hf; left).
        apply list_elem_of_filter in Hh' as [Hkey Hin'].
        rewrite <- Hkey, (Hkeys h' Hin') in Hinh. done.
      * intros k. rewrite (groupStep_lookup _ _ _ k Hstep), Hacc, filter_app, filter_cons.
        case_decide as Hk; simpl.
        -- destruct (filter _ habits) as [|h g]; simpl; done.
        -- rewrite filter_nil, app_nil_r. done.
    + apply groupStep_None in Hstep as [_ Hinh]. exists habit.
      split; [apply elem_of_app; right; left|done].
  - destruct IH as (h & Hin & Hinh). exists h.
    split; [apply elem_of_app; by left|done].
Qed.

(** X11. The grouping fails (with the [TypeError] of [push]) exactly when
    the key of some habit names a member that objects inherit, such as
    "toString" or "constructor".  Otherwise it puts every habit in exactly
    one group, the one of its category id (or "uncategorized" when it has
    none or an empty one); a group lists its habits in the order of the
    habit list and no group is empty. *)
Theorem habitsByCategory_groups (habits : list Habit) :
  (HabitsListView.habitsByCategory habits = None
   ↔ ∃ habit, habit ∈ habits
              ∧ JSObject.inherits (HabitsListView.groupKey habit) = true)
  ∧ (∀ groups, HabitsListView.habitsByCategory habits = Some groups →
       (∀ k group,
          groups !! k = Some group
          ↔ group = filter (λ h, HabitsListView.groupKey h = k) habits ∧ group ≠ [])
       ∧ (∀ habit, habit ∈ habits →
            ∃ group, groups !! HabitsListView.groupKey habit = Some group
                     ∧ habit ∈ group)
       ∧ (∀ k group habit,
            groups !! k = Some group → habit ∈ group →
            habit ∈ habits ∧ HabitsListView.groupKey habit = k))
  ∧ (∀ habit, HabitsListView.groupKey habit = "uncategorized"
              ↔ category_id habit = None ∨ category_id habit = Some EmptyString
                ∨ category_id habit = Some "uncategorized").
Proof.
  pose proof (habitsByCategory_lookup habits) as Hl.
  split; [|split].
  - destruct (HabitsListView.habitsByCategory habits) as [groups|].
    + destruct Hl as [Hkeys _]. split; [done|].
      intros (h & Hin & Hinh). by rewrite (Hkeys h Hin) in Hinh.
    + by split.
  - intros groups Hg. rewrite Hg in Hl. destruct Hl as [_ Hl].
    assert (∀ k group,
       groups !! k = Some group
       ↔ group = filter (λ h, HabitsListView.groupKey h = k) habits ∧ group ≠ []) as H.
    { intros k group. rewrite Hl.
      destruct (filter _ habits) as [|h g]; split.
      - done.
      - by intros [-> ?].
      - by intros [= <-].
      - by intros [-> _]. }
    split; [exact H|]. split.
    + intros habit Hin. eexists. split.
      * apply H. split; [reflexivity|]. intros E.
        assert (habit ∈ filter (λ h, HabitsListView.groupKey h
                                     = HabitsListView.groupKey habit) habits) as Hf
          by (by apply list_elem_of_filter).
        rewrite E in Hf. by apply elem_of_nil in Hf.
      * by apply list_elem_of_filter.
    + intros k group habit Hgr Hin. apply H in Hgr as [-> _].
      apply list_elem_of_filter in Hin. tauto.
  - intros habit. unfold HabitsListView.groupKey, JSMore.truthy_str.
    destruct (category_id habit) as [s|]; simpl.
    + case_bool_decide as Hs; simpl.
      * subst s. split; auto.
      * split; [intros ->; auto|]. intros [?|[[= ?]|[= ?]]]; done.
    + split; auto.
Qed.

(** A habit filed under the category id "toString" stops the grouping;
    one without a category is grouped under "uncategorized". *)
Example habitsByCategory_inherited_key :
  let h1 := mkHabit "h1" "Run" "Park" "daily" None (Some "toString") in
  let h2 := mkHabit "h2" "Read" "Book" "daily" None None in
  HabitsListView.habitsByCategory [h2; h1] = None
  ∧ HabitsListView.habitsByCategory [h2] ≫= (.!! "uncategorized") = Some [h2].
Proof.
  by vm_compute.
Qed.

Lemma find_filter_other {A} (p q : A → Prop) `{!∀ x, Decision (p x)} `{!∀ x, Decision (q x)}
    (l : list A) :
  (∀ x, p x → q x) →
  JSMore.find (λ x, bool_decide (p x)) (filter q l) = JSMore.find (λ x, bool_decide (p x)) l.
Proof.
  intros Hpq. induction l as [|x l IH]; [done|].
  rewrite filter_cons. simpl. case_decide as Hq; simpl.
  - by rewrite IH.
  - rewrite bool_decide_eq_false_2 by (intros Hp; by apply Hq, Hpq). exact IH.
Qed.

Lemma find_filter_none {A} (p q : A → Prop) `{!∀ x, Decision (p x)} `{!∀ x, Decision (q x)}
    (l : list A) :
  (∀ x, p x → ¬ q x) →
  JSMore.find (λ x, bool_decide (p x)) (filter q l) = None.
Proof.
  intros Hpq. induction l as [|x l IH]; [done|].
  rewrite filter_cons. case_decide as Hq; simpl; [|exact IH].
  rewrite bool_decide_eq_false_2 by (intros Hp; by apply (Hpq x)). exact IH.
Qed.

(** X12. Once a category is deleted from the list, the name looked up for
    its id is "Uncategorized" and its colour "gray-500", as for a missing
    id, and the names and colours looked up for the other ids are what
    they were; the group of the habits that still carry the id is headed
    "Uncategorized". *)
Theorem deleted_category_reads_uncategorized (id : string) (categories : list Category) :
  let categories' := (CategoriesList.handleDeleteCategory true Resolved id categories).1 in
  HabitsListView.getCategoryName categories' (Some id) = "Uncategorized"
  ∧ HabitsListView.getCategoryColor categories' (Some id) = "gray-500"
  ∧ HabitsListView.groupHeading categories' id = "Uncategorized"
  ∧ (∀ other, other ≠ Some id →
       HabitsListView.getCategoryName categories' other
       = HabitsListView.getCategoryName categories other
       ∧ HabitsListView.getCategoryColor categories' other
         = HabitsListView.getCategoryColor categories other).
Proof.
  simpl.
  assert (JSMore.find (λ c, bool_decide (Some (cat_id c) = Some id))
            (filter (λ c, cat_id c ≠ id) categories) = None) as Hnone.
  { apply (find_filter_none (λ c, Some (cat_id c) = Some id) (λ c, cat_id c ≠ id)).
    intros c [= E] Hne. done. }
  assert (HabitsListView.getCategoryName (filter (λ c, cat_id c ≠ id) categories) (Some id)
          = "Uncategorized") as Hname.
  { unfold HabitsListView.getCategoryName. rewrite Hnone. by destruct (negb _). }
  split; [exact Hname|]. split; [|split].
  - unfold HabitsListView.getCategoryColor. rewrite Hnone. by destruct (negb _).
  - unfold HabitsListView.groupHeading. case_bool_decide; [done|exact Hname].
  - intros other Hother.
    unfold HabitsListView.getCategoryName, HabitsListView.getCategoryColor.
    rewrite (find_filter_other (λ c, Some (cat_id c) = other) (λ c, cat_id c ≠ id));
      [done|].
    intros c <- E. apply Hother. by rewrite E.
Qed.

(** ** Deleting, again and in turn *)

Section FilterIds.

Context {A : Type} `{HasId A}.

Lemma filter_ids_compose (id1 id2 : string) (l : list A) :
  filter (λ x, id_of x ≠ id1) (filter (λ x, id_of x ≠ id1) l)
  = filter (λ x, id_of x ≠ id1) l
  ∧ filter (λ x, id_of x ≠ id2) (filter (λ x, id_of x ≠ id1) l)
    = filter (λ x, id_of x ≠ id1) (filter (λ x, id_of x ≠ id2) l)
  ∧ ((∀ x, x ∈ l → id_of x ≠ id1) → filter (λ x, id_of x ≠ id1) l = l).
Proof.
  split; [|split].
  - rewrite list_filter_filter. apply list_filter_iff. tauto.
  - rewrite !list_filter_filter. apply list_filter_iff. tauto.
  - intros Hall. induction l as [|x l IH]; [done|].
    rewrite filter_cons. rewrite decide_True by (apply Hall; left).
    f_equal. apply IH. intros y Hy. apply Hall. by right.
Qed.

End FilterIds.

(** X13. Deleting the same id twice leaves what deleting it once leaves,
    two deletions give the same list in either order, and deleting an id
    that no entry carries leaves the list as it is; so for countdowns,
    habits and categories. *)
Theorem delete_twice_and_in_turn (id1 id2 : string) :
  (∀ countdowns : list Countdown,
     let del id l := (CountdownsList.handleDeleteCountdown true Resolved id l).1 in
     del id1 (del id1 countdowns) = del id1 countdowns
     ∧ del id2 (del id1 countdowns) = del id1 (del id2 countdowns)
     ∧ ((∀ c, c ∈ countdowns → cd_id c ≠ id1) → del id1 countdowns = countdowns))
  ∧ (∀ habits : list Habit,
     let del id l := (HabitsList.handleDeleteHabit true Resolved id l).1 in
     del id1 (del id1 habits) = del id1 habits
     ∧ del id2 (del id1 habits) = del id1 (del id2 habits)
     ∧ ((∀ h, h ∈ habits → hb_id h ≠ id1) → del id1 habits = habits))
  ∧ (∀ categories : list Category,
     let del id l := (CategoriesList.handleDeleteCategory true Resolved id l).1 in
     del id1 (del id1 categories) = del id1 categories
     ∧ del id2 (del id1 categories) = del id1 (del id2 categories)
     ∧ ((∀ c, c ∈ categories → cat_id c ≠ id1) → del id1 categories = categories)).
Proof.
  split; [|split]; intros l; simpl.
  - apply (filter_ids_compose (A:=Countdown) id1 id2 l).
  - apply (filter_ids_compose (A:=Habit) id1 id2 l).
  - apply (filter_ids_compose (A:=Category) id1 id2 l).
Qed.

(** ** Adding a category *)

(** X14. Submitting the category form with a name that trims to nothing
    sends no request and keeps the list and the form, with an error
    shown; a failed request keeps them too.  A successful one appends the
    category the server answered to the end of the list and resets the
    form. *)
Theorem category_handleSubmit_spec (trim : string → string) (API : string)
    (created : Response Category) (state : CategoryForm.State) :
  let '(state', requests) := CategoryForm.handleSubmit trim API created state in
  (trim (CategoryForm.nc_name (CategoryForm.newCategory state)) = EmptyString →
     requests = []
     ∧ CategoryForm.categories state' = CategoryForm.categories state
     ∧ CategoryForm.newCategory state' = CategoryForm.newCategory state
     ∧ CategoryForm.isAdding state' = CategoryForm.isAdding state
     ∧ CategoryForm.error state' = "Category name is required")
  ∧ (trim (CategoryForm.nc_name (CategoryForm.newCategory state)) ≠ EmptyString →
     requests = [CategoryForm.PostCategory (API +:+ "/categories")
                   (CategoryForm.newCategory state)]
     ∧ match created with
       | Ok data =>
           CategoryForm.categories state' = CategoryForm.categories state ++ [data]
           ∧ CategoryForm.newCategory state' = CategoryForm.emptyForm
           ∧ CategoryForm.isAdding state' = false
           ∧ CategoryForm.error state' = EmptyString
       | Failed =>
           CategoryForm.categories state' = CategoryForm.categories state
           ∧ CategoryForm.newCategory state' = CategoryForm.newCategory state
           ∧ CategoryForm.isAdding state' = CategoryForm.isAdding state
           ∧ CategoryForm.error state' = "Failed to create category"
       end)
  ∧ (CategoryForm.categories state' ≠ CategoryForm.categories state →
     ∃ data, created = Ok data
             ∧ CategoryForm.categories state' = CategoryForm.categories state ++ [data]).
Proof.
  unfold CategoryForm.handleSubmit. case_bool_decide as Hblank.
  - simpl. split; [done|]. split; [done|]. done.
  - destruct created as [data|]; simpl.
    + split; [done|]. split; [done|]. eauto.
    + split; [done|]. split; [done|]. done.
Qed.

(** X15. Adding a category and then deleting it gives back the list of
    categories as it was, provided no category of the list already had
    the id the server gave to the new one. *)
Theorem category_add_then_delete (trim : string → string) (API : string)
    (data : Category) (state : CategoryForm.State) :
  trim (CategoryForm.nc_name (CategoryForm.newCategory state)) ≠ EmptyString →
  (∀ c, c ∈ CategoryForm.categories state → cat_id c ≠ cat_id data) →
  (CategoriesList.handleDeleteCategory true Resolved (cat_id data)
     (CategoryForm.categories (CategoryForm.handleSubmit trim API (Ok data) state).1)).1
  = CategoryForm.categories state.
Proof.
  intros Hname Hfresh. unfold CategoryForm.handleSubmit.
  rewrite bool_decide_eq_false_2 by done. simpl.
  rewrite filter_app, filter_cons, decide_False, filter_nil, app_nil_r
    by (intros Hne; by apply Hne).
  apply (filter_ids_compose (A:=Category) (cat_id data) (cat_id data)).
  exact Hfresh.
Qed.

Lemma category_add_then_delete_witness :
  let state :=
    CategoryForm.mkState [mkCategory "c1" "Health" "22c55e"]
      (CategoryForm.mkNewCategory "Work" "4f46e5") true EmptyString in
  let data := mkCategory "c2" "Work" "4f46e5" in
  CategoryForm.nc_name (CategoryForm.newCategory state) ≠ EmptyString
  ∧ (∀ c, c ∈ CategoryForm.categories state → cat_id c ≠ cat_id data)
  ∧ (CategoriesList.handleDeleteCategory true Resolved (cat_id data)
       (CategoryForm.categories
          (CategoryForm.handleSubmit (λ s, s) "/api" (Ok data) state).1)).1
    = CategoryForm.categories state.
Proof.
  intros state data.
  assert (CategoryForm.nc_name (CategoryForm.newCategory state) ≠ EmptyString) as H1
    by discriminate.
  assert (∀ c, c ∈ CategoryForm.categories state → cat_id c ≠ cat_id data) as H2.
  { intros c Hc. apply list_elem_of_singleton in Hc as ->. discriminate. }
  split; [exact H1|]. split; [exact H2|].
  exact (category_add_then_delete (λ s, s) "/api" data state H1 H2).
Defined.

(** ** The theme *)

(** X16. The saved theme survives a reload: whatever the preference of the
    system, the provider starts in the mode that was saved last, so a
    toggle followed by a reload gives the opposite of the mode before;
    with nothing saved, or an empty value, it starts in the preference of
    the system, and any other saved text than "true" means light. *)
Theorem theme_round_trip (darkMode prefersDark : bool) :
  Theme.initialDarkMode (Some (Theme.savedValue darkMode)) prefersDark = darkMode
  ∧ Theme.initialDarkMode (Some (Theme.savedValue (Theme.toggleDarkMode darkMode)))
      prefersDark = negb darkMode
  ∧ Theme.initialDarkMode None prefersDark = prefersDark
  ∧ Theme.initialDarkMode (Some EmptyString) prefersDark = prefersDark
  ∧ (∀ saved, saved ≠ EmptyString → saved ≠ "true" →
       Theme.initialDarkMode (Some saved) prefersDark = false).
Proof.
  repeat split; try by destruct darkMode.
  intros saved Hne Ht. unfold Theme.initialDarkMode, JSMore.truthy_str.
  rewrite bool_decide_eq_false_2 by done. simpl.
  apply bool_decide_eq_false_2. by intros [= ->].
Qed.

(** ** Today's logs on the habits page *)

Lemma fetchLogsMap_own_proto
    (responses : list (Habit * Response (list HabitsListView.HabitLog))) :
  HabitsListView.fetchLogsMap responses !! "__proto__" = None.
Proof.
  unfold HabitsListView.fetchLogsMap.
  induction responses as [|[habit r] responses IH] using rev_ind; [done|].
  rewrite foldl_app. simpl. set (logsMap := foldl _ ∅ responses) in *.
  assert (∀ flag, JSObject.set_primitive logsMap (hb_id habit) flag !! "__proto__"
                  = None) as H.
  { intros flag. unfold JSObject.set_primitive.
    destruct (decide (hb_id habit = "__proto__")) as [E|E].
    - rewrite E, IH. by rewrite bool_decide_eq_true_2.
    - destruct (logsMap !! hb_id habit).
      + by rewrite lookup_insert_ne.
      + rewrite bool_decide_eq_false_2 by done. by rewrite lookup_insert_ne. }
  destruct r; apply H.
Qed.

Lemma fetchLogsMap_snoc (responses : list (Habit * Response (list HabitsListView.HabitLog)))
    (habit : Habit) (r : Response (list HabitsListView.HabitLog)) :
  HabitsListView.fetchLogsMap (responses ++ [(habit, r)])
  = if bool_decide (hb_id habit = "__proto__")
    then HabitsListView.fetchLogsMap responses
    else <[hb_id habit := match r with
                          | Ok data => bool_decide (0 < length data)%nat
                          | Failed => false
                          end]> (HabitsListView.fetchLogsMap responses).
Proof.
  pose proof (fetchLogsMap_own_proto responses) as Hp.
  unfold HabitsListView.fetchLogsMap in *. rewrite foldl_app. simpl.
  set (logsMap := foldl _ ∅ responses) in *.
  assert (∀ flag, JSObject.set_primitive logsMap (hb_id habit) flag
                  = if bool_decide (hb_id habit = "__proto__") then logsMap
                    else <[hb_id habit := flag]> logsMap) as H.
  { intros flag. unfold JSObject.set_primitive. case_bool_decide as E.
    - by rewrite E, Hp.
    - by destruct (logsMap !! hb_id habit). }
  destruct r; apply H.
Qed.

Lemma fetchLogsMap_lookup_None
    (responses : list (Habit * Response (list HabitsListView.HabitLog))) (k : string) :
  HabitsListView.fetchLogsMap responses !! k = None
  ↔ k = "__proto__" ∨ k ∉ hb_id <$> responses.*1.
Proof.
  induction responses as [|[habit r] responses IH] using rev_ind.
  - split; [intros _; right; apply not_elem_of_nil|done].
  - rewrite fetchLogsMap_snoc, !fmap_app, not_elem_of_app. simpl.
    destruct (decide (k = "__proto__")) as [Hk|Hk].
    + subst k. split; [by left|]. intros _.
      case_bool_decide; [apply fetchLogsMap_own_proto|].
      rewrite lookup_insert_ne by done. apply fetchLogsMap_own_proto.
    + case_bool_decide as Hh.
      * rewrite IH. split; [|tauto]. intros [?|Hn]; [done|]. right. split; [done|].
        intros Hin. apply list_elem_of_singleton in Hin. congruence.
      * rewrite lookup_insert. case_decide as Hk'.
        -- subst k. split; [done|]. intros [?|[_ Hn]]; [done|]. exfalso. apply Hn. left.
        -- rewrite IH. split; [|tauto]. intros [?|Hn]; [done|]. right. split; [done|].
           intros Hin. apply list_elem_of_singleton in Hin. congruence.
Qed.

(** X17. After the logs of today are fetched for habits with distinct
    ids, the card of a fetched habit shows "Completed Today" exactly when
    its request succeeded with at least one log, a failed request and an
    empty answer both leaving "Mark Complete"; the one exception is the id
    "__proto__", under which nothing is stored and the card always shows
    "Completed Today".  The map holds a flag for the fetched ids other
    than "__proto__" and no other; the card of a habit that was not
    fetched shows "Completed Today" exactly when its id names a member
    that objects inherit; and a successful log afterwards makes the card
    of any habit show "Completed Today". *)
Theorem fetchLogsMap_flags
    (responses : list (Habit * Response (list HabitsListView.HabitLog))) :
  NoDup (hb_id <$> responses.*1) →
  (∀ habit r, (habit, r) ∈ responses →
     HabitsListView.completedToday (HabitsListView.fetchLogsMap responses) habit = true
     ↔ hb_id habit = "__proto__" ∨ ∃ data, r = Ok data ∧ data ≠ [])
  ∧ (∀ k, HabitsListView.fetchLogsMap responses !! k = None
          ↔ k = "__proto__" ∨ k ∉ hb_id <$> responses.*1)
  ∧ (∀ habit, hb_id habit ∉ hb_id <$> responses.*1 →
       HabitsListView.completedToday (HabitsListView.fetchLogsMap responses) habit
       = JSObject.inherits (hb_id habit))
  ∧ (∀ habit,
       HabitsListView.completedToday
         (HabitsList.handleLogCompletion Resolved (hb_id habit)
            (HabitsListView.fetchLogsMap responses)).1 habit = true).
Proof.
  intros Hnd. split; [|split; [|split]].
  - intros habit r Hin.
    destruct (decide (hb_id habit = "__proto__")) as [Hp|Hp].
    { split; [by left|]. intros _.
      unfold HabitsListView.completedToday, JSObject.get.
      by rewrite Hp, fetchLogsMap_own_proto. }
    revert habit r Hin Hp.
    induction responses as [|[habit' r'] responses IH] using rev_ind;
      intros habit r Hin Hp; [by apply elem_of_nil in Hin|].
    rewrite !fmap_app in Hnd. apply NoDup_app in Hnd as (Hnd & Hfresh & _).
    unfold HabitsListView.completedToday, JSObject.get. rewrite fetchLogsMap_snoc.
    apply elem_of_app in Hin as [Hin|Hin].
    + assert (hb_id habit ∈ hb_id <$> responses.*1) as Hid.
      { apply list_elem_of_fmap. exists habit. split; [done|].
        apply list_elem_of_fmap. by exists (habit, r). }
      assert (hb_id habit' ≠ hb_id habit) as Hne.
      { intros E. apply (Hfresh _ Hid). simpl. rewrite <- E. left. }
      case_bool_decide; [|rewrite lookup_insert_ne by done]; by apply IH.
    + apply list_elem_of_singleton in Hin as [= -> ->].
      rewrite bool_decide_eq_false_2 by done.
      rewrite lookup_insert_eq. destruct r' as [data|].
      * rewrite bool_decide_eq_true. destruct data; simpl; split.
        -- lia.
        -- intros [?|(? & [= <-] & ?)]; done.
        -- intros _. right. eexists. split; [done|]. done.
        -- lia.
      * split; [done|]. intros [?|(? & ? & _)]; done.
  - apply fetchLogsMap_lookup_None.
  - intros habit Hn. unfold HabitsListView.completedToday, JSObject.get.
    rewrite (proj2 (fetchLogsMap_lookup_None responses (hb_id habit))) by (by right).
    by destruct (JSObject.inherits _).
  - intros habit. unfold HabitsListView.completedToday, JSObject.get. simpl.
    by rewrite lookup_insert_eq.
Qed.

Lemma fetchLogsMap_flags_witness :
  let h1 := mkHabit "h1" "Run" "Park" "daily" None None in
  let h2 := mkHabit "h2" "Read" "Book" "daily" None None in
  let h3 := mkHabit "__proto__" "Rest" "Nap" "daily" None None in
  let responses :=
    [(h1, Ok [HabitsListView.mkHabitLog "l1" "h1" 1000]); (h2, Failed); (h3, Failed)] in
  NoDup (hb_id <$> responses.*1)
  ∧ (HabitsListView.completedToday (HabitsListView.fetchLogsMap responses) h2 = true
     ↔ hb_id h2 = "__proto__"
       ∨ ∃ data, @Failed (list HabitsListView.HabitLog) = Ok data ∧ data ≠ []).
Proof.
  intros h1 h2 h3 responses.
  assert (NoDup (hb_id <$> responses.*1)) as Hnd
    by (apply (bool_decide_unpack (NoDup (hb_id <$> responses.*1))); vm_compute; exact I).
  split; [exact Hnd|].
  apply (proj1 (fetchLogsMap_flags responses Hnd) h2 Failed).
  right. left.
Defined.

(** A fetched habit whose id is "__proto__" reads as completed although
    its request failed, and one whose id is "constructor" does not. *)
Example fetchLogsMap_inherited_ids :
  let h3 := mkHabit "__proto__" "Rest" "Nap" "daily" None None in
  let h4 := mkHabit "constructor" "Build" "Shed" "daily" None None in
  let responses : list (Habit * Response (list HabitsListView.HabitLog)) :=
    [(h3, Failed); (h4, Failed)] in
  HabitsListView.completedToday (HabitsListView.fetchLogsMap responses) h3 = true
  ∧ HabitsListView.completedToday (HabitsListView.fetchLogsMap responses) h4 = false.
Proof.
  by vm_compute.
Qed.

(** ** The bar chart of a habit *)

Lemma filter_none {A} (P : A → Prop) `{!∀ x, Decision (P x)} (l : list A) :
  (∀ x, x ∈ l → ¬ P x) → filter P l = [].
Proof.
  induction l as [|x l IH]; intros Hall; [done|].
  rewrite filter_cons, decide_False by (apply Hall; left).
  apply IH. intros y Hy. apply Hall. by right.
Qed.

Section BarChart.

Variable toDateString : Date → string.

Lemma logsByDate_lookup (logs : list HabitsListView.HabitLog) (day : string) :
  default 0%nat (HabitStatsView.logsByDate toDateString logs !! day)
  = length (filter (λ log, toDateString (HabitsListView.completed_at log) = day) logs)
  ∧ (HabitStatsView.logsByDate toDateString logs !! day = None
     ↔ filter (λ log, toDateString (HabitsListView.completed_at log) = day) logs = []).
Proof.
  unfold HabitStatsView.logsByDate.
  induction logs as [|log logs [IH1 IH2]] using rev_ind.
  - simpl. by rewrite lookup_empty.
  - rewrite foldl_app. simpl. unfold HabitStatsView.countStep at 1 3.
    rewrite filter_app, filter_cons, lookup_insert. case_decide as Hd; simpl.
    + subst day. rewrite length_app. simpl. rewrite IH1. split; [done|].
      split; [done|]. intros E. by apply app_eq_nil in E as [_ ?].
    + rewrite filter_nil, app_nil_r. done.
Qed.

(** X18. Each bar of the chart is the number of fetched logs whose local
    day is the day of the bar, 0 when there is none; a day is in the
    counting table only if some log fell on it. *)
Theorem barData_counts (last7Days : list Date) (logs : list HabitsListView.HabitLog) :
  length (HabitStatsView.barData toDateString last7Days logs) = length last7Days
  ∧ (∀ i date, last7Days !! i = Some date →
       HabitStatsView.barData toDateString last7Days logs !! i
       = Some (length (filter (λ log, toDateString (HabitsListView.completed_at log) = toDateString date) logs)))
  ∧ (∀ day n, HabitStatsView.logsByDate toDateString logs !! day = Some n →
       (1 ≤ n)%nat ∧ n = length (filter (λ log, toDateString (HabitsListView.completed_at log) = day) logs)).
Proof.
  split; [|split].
  - unfold HabitStatsView.barData. by rewrite length_fmap.
  - intros i date Hi. unfold HabitStatsView.barData.
    rewrite list_lookup_fmap, Hi. simpl. f_equal. apply logsByDate_lookup.
  - intros day n Hn. destruct (logsByDate_lookup logs day) as [H1 H2].
    rewrite Hn in H1. simpl in H1. split; [|done].
    destruct (decide (n = 0%nat)) as [->|Hn0]; [|lia].
    symmetry in H1. apply nil_length_inv, H2 in H1. congruence.
Qed.

(** X19. Removing a log takes it out of its bar and of no other: after a
    confirmed and successful removal every bar has gone down by the
    number of logs of its day that carried the removed id, which is one
    for the day of the log and none elsewhere when ids are distinct. *)
Theorem barData_after_delete (logId : string) (logs : list HabitsListView.HabitLog)
    (day : string) :
  let logs' := (HabitStatsView.handleDeleteLog true Resolved logId logs).1 in
  let bar l := default 0%nat (HabitStatsView.logsByDate toDateString l !! day) in
  (bar logs' + length (filter (λ l, HabitsListView.log_id l = logId ∧ toDateString (HabitsListView.completed_at l) = day) logs)
   = bar logs)%nat
  ∧ (NoDup (HabitsListView.log_id <$> logs) →
     ∀ log, log ∈ logs → HabitsListView.log_id log = logId →
     bar logs' = (bar logs - (if decide (toDateString (HabitsListView.completed_at log) = day) then 1 else 0))%nat).
Proof.
  simpl.
  rewrite !(proj1 (logsByDate_lookup _ day)).
  assert (∀ l : list HabitsListView.HabitLog,
            (length (filter (λ log, toDateString (HabitsListView.completed_at log) = day) (filter (λ l, HabitsListView.log_id l ≠ logId) l))
             + length (filter (λ l, HabitsListView.log_id l = logId ∧ toDateString (HabitsListView.completed_at l) = day) l)
             = length (filter (λ log, toDateString (HabitsListView.completed_at log) = day) l))%nat) as Hsplit.
  { induction l as [|x l IH]; [done|].
    rewrite !filter_cons.
    destruct (decide (HabitsListView.log_id x = logId)) as [Hx|Hx];
      destruct (decide (toDateString (HabitsListView.completed_at x) = day)) as [Hy|Hy].
    - rewrite decide_False by tauto. rewrite decide_True by tauto. simpl. lia.
    - rewrite decide_False by tauto. rewrite decide_False by tauto. simpl. lia.
    - rewrite decide_True by tauto. rewrite filter_cons, decide_True by done.
      rewrite decide_False by tauto. simpl. lia.
    - rewrite decide_True by tauto. rewrite filter_cons, decide_False by done.
      rewrite decide_False by tauto. simpl. lia. }
  split; [apply Hsplit|].
  intros Hnd log Hin Hid. specialize (Hsplit logs).
  assert (filter (λ l, HabitsListView.log_id l = logId ∧ toDateString (HabitsListView.completed_at l) = day) logs
          = if decide (toDateString (HabitsListView.completed_at log) = day) then [log] else []) as E.
  { clear Hsplit. induction logs as [|x l IH]; [by apply elem_of_nil in Hin|].
    rewrite fmap_cons in Hnd. apply NoDup_cons in Hnd as [Hx Hnd].
    rewrite filter_cons. apply elem_of_cons in Hin as [->|Hin].
    - assert (filter (λ l, HabitsListView.log_id l = logId ∧ toDateString (HabitsListView.completed_at l) = day) l = []) as ->.
      { apply filter_none. intros y Hy [Hyid _].
        apply Hx. apply list_elem_of_fmap. exists y. split; [congruence|done]. }
      destruct (decide (toDateString (HabitsListView.completed_at x) = day)).
      + by rewrite decide_True by tauto.
      + by rewrite decide_False by tauto.
    - rewrite decide_False.
      + by apply IH.
      + intros [Hxid _]. apply Hx. apply list_elem_of_fmap. exists log.
        split; [congruence|done]. }
  rewrite E in Hsplit. destruct (decide (toDateString (HabitsListView.completed_at log) = day)); simpl in Hsplit; lia.
Qed.

End BarChart.

(** ** Paths *)

Lemma append_cons (c : Ascii.ascii) (s t : string) :
  String c s +:+ t = String c (s +:+ t).
Proof. reflexivity. Qed.

Lemma append_nil_l (t : string) : EmptyString +:+ t = t.
Proof. reflexivity. Qed.




Lemma prefix_empty (s : string) : String.prefix EmptyString s = true.
Proof. by destruct s. Qed.

Lemma prefix_slash_no_slash (sep' s : string) (c : Ascii.ascii) :
  c ≠ JSString.slash → String.prefix (String JSString.slash sep') (String c s) = false.
Proof.
  intros Hc. cbn [String.prefix].
  destruct (Ascii.ascii_dec JSString.slash c) as [E|E]; [congruence|reflexivity].
Qed.



Lemma includes_append (sub a s : string) :
  JSString.includes sub s = true → JSString.includes sub (a +:+ s) = true.
Proof.
  intros Hs. induction a as [|c a IH]; [done|].
  rewrite append_cons. cbn [JSString.includes]. rewrite IH. apply orb_true_r.
Qed.

Lemma includes_no_slash (sep' id : string) :
  JSString.has_char JSString.slash id = false →
  JSString.includes (String JSString.slash sep') id = false.
Proof.
  induction id as [|c id IH]; intros Hid; [done|].
  cbn [JSString.has_char] in Hid. apply orb_false_iff in Hid as [Hc Hid].
  apply bool_decide_eq_false in Hc.
  cbn [JSString.includes]. rewrite prefix_slash_no_slash by done. by apply IH.
Qed.

Ltac spell_out :=
  repeat rewrite append_cons; rewrite ?append_nil_l.



(** X23. On the statistics page of a habit the navigation bar lights both
    the Habits tab and the Stats tab, whatever the id.  On the edit page
    of a countdown whose id has no [/] it lights the Countdowns tab, and
    the Habits or the Stats tab too exactly when the id starts with
    "habits" or with "stats". *)
Theorem activeTabs_pages (id : string) :
  (let '(home, countdowns, habits, stats) := Paths.activeTabs (Paths.habitStatsLink id) in
   home = false ∧ habits = true ∧ stats = true)
  ∧ (JSString.has_char JSString.slash id = false →
     Paths.activeTabs (Paths.countdownEditLink id)
     = (false, true, String.prefix "habits" id, String.prefix "stats" id)).
Proof.
  split.
  - unfold Paths.activeTabs, Paths.habitStatsLink. split; [|split].
    + apply bool_decide_eq_false. spell_out. discriminate.
    + spell_out. cbn [JSString.includes String.prefix]. simpl.
      rewrite ?prefix_empty; reflexivity.
    + apply (includes_append "/stats" ("/habits/" +:+ id) "/stats"). reflexivity.
  - intros Hid. unfold Paths.activeTabs, Paths.countdownEditLink.
    assert (bool_decide ("/countdowns/edit/" +:+ id = "/") = false) as ->.
    { apply bool_decide_eq_false. spell_out. discriminate. }
    assert (JSString.includes "/countdowns" ("/countdowns/edit/" +:+ id) = true) as ->.
    { spell_out. cbn [JSString.includes String.prefix]. simpl.
      rewrite ?prefix_empty; reflexivity. }
    assert (JSString.includes "/habits" ("/countdowns/edit/" +:+ id)
            = String.prefix "habits" id) as ->.
    { spell_out. cbn [JSString.includes String.prefix]. simpl.
      change "/habits" with (String JSString.slash "habits").
      rewrite includes_no_slash by done. apply orb_false_r. }
    assert (JSString.includes "/stats" ("/countdowns/edit/" +:+ id)
            = String.prefix "stats" id) as ->.
    { spell_out. cbn [JSString.includes String.prefix]. simpl.
      change "/stats" with (String JSString.slash "stats").
      rewrite includes_no_slash by done. apply orb_false_r. }
    reflexivity.
Qed.

Example activeTabs_examples :
  Paths.activeTabs "/" = (true, false, false, false)
  ∧ Paths.activeTabs (Paths.habitStatsLink "h1") = (false, false, true, true)
  ∧ Paths.activeTabs (Paths.countdownEditLink "c1") = (false, true, false, false)
  ∧ Paths.activeTabs (Paths.countdownEditLink "stats-day") = (false, true, false, true).
Proof. repeat split. Qed.

Example split_examples :
  JSString.split "/" "a/b//c" = ["a"; "b"; EmptyString; "c"]
  ∧ JSString.split "ab" "xabab" = ["x"; EmptyString; EmptyString]
  ∧ JSString.split "aa" "aaa" = [EmptyString; "a"]
  ∧ JSString.split "/edit/" "/habits/new" = ["/habits/new"]
  ∧ JSString.split "/habits/" "/habits/h1/stats" = [EmptyString; "h1/stats"]
  ∧ JSString.includes "/edit/" "/habits/edit/h1" = true
  ∧ JSString.includes "/edit/" "/habits/new" = false.
Proof. repeat split. Qed.
